(** * OpenVoice serverless worker: the job handler of [src/app/handler.py]

    A shallow embedding of the worker's Python module, and the properties
    its specification states about it.

    The module is orchestration around collaborators it does not own: the
    process environment, the file system, remote HTTP servers, the wall
    clock, the random generator, and the third-party libraries (torch,
    OpenVoice, MeloTTS, boto3, zipfile).  The embedding keeps the Python
    control flow (the [(result, error)] pairs, the [try]/[except] blocks,
    the early [return]s, truthiness tests) and runs it in a state and
    exception monad over an explicit [World].  The third-party libraries
    are an interface ([Collaborators]); every theorem holds for every
    implementation of it.

    Embedded: [check_directories], [download_and_unzip],
    [generate_unique_filename], [download_file], [upload_to_s3],
    [sync_checkpoints], [generate_wav], [handler], and the constants of
    the [__main__] block.  [map_network_volume], the one function that
    works with symbolic links, is embedded in [Volume] over a file
    system that has them.

    Conventions of the model:
    - an exception is an instance of [Exception], as the operations of
      the module raise on failure; a call into a library returns or
      raises;
    - [print] is left out; what a printed f-string evaluates is kept
      where it can raise;
    - a log ([trace]) records the entry into [generate_wav] and the
      interactions with the network, the converter and the storage, so
      that "is not called" and "is called once per speaker" can be
      stated. *)

From Stdlib Require Import ZArith QArith String Ascii List DecimalString Lia.
From Stdlib Require Import Init.Byte.
From stdpp Require Import base gmap strings list.
From Corelib Require Import ssreflect_rw.

Set Warnings "-register-all".
Local Open Scope string_scope.

(* ===================================================================== *)
(** * Byte and text helpers of the Python standard library *)
(* ===================================================================== *)

(** Python [str] values are kept as their UTF-8 bytes, one [ascii] per
    byte, so [s.encode()] is the list of the character codes. *)
Definition str_encode (s : string) : list Z :=
  map (fun c => Z.of_N (N_of_ascii c)) (list_ascii_of_string s).

Definition hex_digit (n : Z) : ascii :=
  default "0"%char (String.get (Z.to_nat n) "0123456789abcdef").

Definition hex_byte (b : Z) : string :=
  String (hex_digit (Z.shiftr b 4)) (String (hex_digit (Z.land b 15)) "").

(** ** [hashlib.md5] (RFC 1321), on 32-bit words kept as [Z] *)
Module MD5.

Definition mask32 (x : Z) : Z := Z.land x 4294967295.

Definition add32 (x y : Z) : Z := mask32 (x + y).

Definition rotl32 (x c : Z) : Z :=
  mask32 (Z.lor (Z.shiftl x c) (Z.shiftr x (32 - c))).

Definition not32 (x : Z) : Z := Z.lxor x 4294967295.

(** [floor (2^32 * |sin (i + 1)|)] for [i = 0 .. 63]. *)
Definition K : list Z :=
  [ 3614090360; 3905402710; 606105819; 3250441966;
    4118548399; 1200080426; 2821735955; 4249261313;
    1770035416; 2336552879; 4294925233; 2304563134;
    1804603682; 4254626195; 2792965006; 1236535329;
    4129170786; 3225465664; 643717713; 3921069994;
    3593408605; 38016083; 3634488961; 3889429448;
    568446438; 3275163606; 4107603335; 1163531501;
    2850285829; 4243563512; 1735328473; 2368359562;
    4294588738; 2272392833; 1839030562; 4259657740;
    2763975236; 1272893353; 4139469664; 3200236656;
    681279174; 3936430074; 3572445317; 76029189;
    3654602809; 3873151461; 530742520; 3299628645;
    4096336452; 1126891415; 2878612391; 4237533241;
    1700485571; 2399980690; 4293915773; 2240044497;
    1873313359; 4264355552; 2734768916; 1309151649;
    4149444226; 3174756917; 718787259; 3951481745 ]%Z.

Definition shifts : list Z :=
  [ 7; 12; 17; 22; 7; 12; 17; 22; 7; 12; 17; 22; 7; 12; 17; 22;
    5; 9; 14; 20; 5; 9; 14; 20; 5; 9; 14; 20; 5; 9; 14; 20;
    4; 11; 16; 23; 4; 11; 16; 23; 4; 11; 16; 23; 4; 11; 16; 23;
    6; 10; 15; 21; 6; 10; 15; 21; 6; 10; 15; 21; 6; 10; 15; 21 ]%Z.

(** Little-endian bytes of [x], [n] of them. *)
Fixpoint le_bytes (n : nat) (x : Z) : list Z :=
  match n with
  | O => []
  | S n' => Z.land x 255 :: le_bytes n' (Z.shiftr x 8)
  end.

Definition pad (msg : list Z) : list Z :=
  let n := Z.of_nat (length msg) in
  msg ++ [128%Z] ++ repeat 0%Z (Z.to_nat ((55 - n) mod 64))
      ++ le_bytes 8 (8 * n).

(** Little-endian 32-bit words of a byte list. *)
Fixpoint le_words (bs : list Z) : list Z :=
  match bs with
  | b0 :: b1 :: b2 :: b3 :: rest =>
      (b0 + Z.shiftl b1 8 + Z.shiftl b2 16 + Z.shiftl b3 24)%Z
        :: le_words rest
  | _ => []
  end.

Record state := State { sA : Z; sB : Z; sC : Z; sD : Z }.

Definition init : state :=
  State 1732584193 4023233417 2562383102 271733878.

Definition nthZ (l : list Z) (i : Z) : Z := nth (Z.to_nat i) l 0%Z.

Definition step (M : list Z) (s : state) (i : Z) : state :=
  let '(State A B C D) := s in
  let '(F, g) :=
    if (i <? 16)%Z then
      (Z.lor (Z.land B C) (Z.land (not32 B) D), i)
    else if (i <? 32)%Z then
      (Z.lor (Z.land D B) (Z.land (not32 D) C), ((5 * i + 1) mod 16)%Z)
    else if (i <? 48)%Z then
      (Z.lxor (Z.lxor B C) D, ((3 * i + 5) mod 16)%Z)
    else
      (Z.lxor C (Z.lor B (not32 D)), ((7 * i) mod 16)%Z) in
  let F' := add32 (add32 (add32 F A) (nthZ K i)) (nthZ M g) in
  State D (add32 B (rotl32 F' (nthZ shifts i))) B C.

Definition compress (s : state) (M : list Z) : state :=
  let s' := fold_left (step M) (map Z.of_nat (seq 0 64)) s in
  State (add32 (sA s) (sA s')) (add32 (sB s) (sB s'))
        (add32 (sC s) (sC s')) (add32 (sD s) (sD s')).

(** The message words, sixteen at a time; [fuel] bounds the number of
    blocks and is the number of words. *)
Fixpoint blocks (fuel : nat) (ws : list Z) (s : state) : state :=
  match fuel, ws with
  | S fuel', _ :: _ => blocks fuel' (skipn 16 ws) (compress s (firstn 16 ws))
  | _, _ => s
  end.

Definition digest (msg : list Z) : list Z :=
  let ws := le_words (pad msg) in
  let s := blocks (length ws) ws init in
  le_bytes 4 (sA s) ++ le_bytes 4 (sB s) ++ le_bytes 4 (sC s)
    ++ le_bytes 4 (sD s).

Definition hexdigest (msg : list Z) : string :=
  String.concat "" (map hex_byte (digest msg)).

End MD5.

(** ** [base64.b64encode] (RFC 4648, standard alphabet, padded) *)
Module Base64.

Definition alphabet : string :=
  "ABCDEFGHIJKLMNOPQRSTUVWXYZabcdefghijklmnopqrstuvwxyz0123456789+/".

Definition digit (n : N) : ascii :=
  default "="%char (String.get (N.to_nat n) alphabet).

Fixpoint b64encode (bs : list byte) : string :=
  match bs with
  | [] => ""
  | [a] =>
      let x := Byte.to_N a in
      String (digit (N.shiftr x 2))
        (String (digit (N.shiftl (N.land x 3) 4)) "==")
  | [a; b] =>
      let x := Byte.to_N a in
      let y := Byte.to_N b in
      String (digit (N.shiftr x 2))
        (String (digit (N.lor (N.shiftl (N.land x 3) 4) (N.shiftr y 4)))
           (String (digit (N.shiftl (N.land y 15) 2)) "="))
  | a :: b :: c :: rest =>
      let x := Byte.to_N a in
      let y := Byte.to_N b in
      let z := Byte.to_N c in
      String (digit (N.shiftr x 2))
        (String (digit (N.lor (N.shiftl (N.land x 3) 4) (N.shiftr y 4)))
           (String (digit (N.lor (N.shiftl (N.land y 15) 2) (N.shiftr z 6)))
              (String (digit (N.land z 63)) (b64encode rest))))
  end.

End Base64.

(** ** Strings, paths and formatting *)

Definition str_nonempty (s : string) : bool :=
  match s with
  | EmptyString => false
  | String _ _ => true
  end.

(** [s.startswith(p)] *)
Definition str_startswith (p s : string) : bool := String.prefix p s.

Definition ascii_lower (c : ascii) : ascii :=
  let n := nat_of_ascii c in
  if (65 <=? n)%nat && (n <=? 90)%nat then ascii_of_nat (n + 32) else c.

Fixpoint str_map (f : ascii -> ascii) (s : string) : string :=
  match s with
  | EmptyString => EmptyString
  | String c r => String (f c) (str_map f r)
  end.

(** [s.lower()], on the ASCII letters. *)
Definition str_lower (s : string) : string := str_map ascii_lower s.

(** [s.replace(a, b)] for single characters [a] and [b]. *)
Definition str_replace (a b : ascii) (s : string) : string :=
  str_map (fun c => if Ascii.eqb c a then b else c) s.

(** [s[:n]] *)
Definition str_take (n : nat) (s : string) : string := String.substring 0 n s.

Fixpoint basename_from (acc s : string) : string :=
  match s with
  | EmptyString => acc
  | String c r =>
      if Ascii.eqb c "/" then basename_from "" r
      else basename_from (acc ++ String c "") r
  end.

(** [os.path.basename(p)]: what follows the last slash. *)
Definition os_path_basename (p : string) : string := basename_from "" p.

Fixpoint str_last (s : string) : option ascii :=
  match s with
  | EmptyString => None
  | String c EmptyString => Some c
  | String _ r => str_last r
  end.

(** [os.path.join(a, b)] (POSIX). *)
Definition os_path_join (a b : string) : string :=
  if str_startswith "/" b then b
  else match str_last a with
       | None => b
       | Some c => if Ascii.eqb c "/" then a ++ b else a ++ "/" ++ b
       end.

(** [str(n)] for a non-negative integer. *)
Definition dec (n : nat) : string := NilEmpty.string_of_uint (Nat.to_uint n).

Fixpoint zeros (k : nat) : string :=
  match k with
  | O => ""
  | S k' => String "0" (zeros k')
  end.

(** [n] in decimal, zero-padded on the left to [width] digits. *)
Definition pad_dec (width n : nat) : string :=
  let d := dec n in zeros (width - String.length d) ++ d.

Record datetime := DateTime {
  dt_year : nat; dt_month : nat; dt_day : nat;
  dt_hour : nat; dt_minute : nat; dt_second : nat
}.

(** [t.strftime('%Y%m%d_%H%M%S')] *)
Definition strftime (t : datetime) : string :=
  pad_dec 4 (dt_year t) ++ pad_dec 2 (dt_month t) ++ pad_dec 2 (dt_day t)
    ++ "_" ++ pad_dec 2 (dt_hour t) ++ pad_dec 2 (dt_minute t)
    ++ pad_dec 2 (dt_second t).

(** [string.ascii_lowercase + string.digits] *)
Definition ascii_lowercase_digits : string :=
  "abcdefghijklmnopqrstuvwxyz0123456789".

(* ===================================================================== *)
(** * Python values *)
(* ===================================================================== *)

(** An exception object; [str(e)] is [exn_msg e].  Every exception of the
    model is an instance of [Exception], which is what the operations of
    the module raise when they fail. *)
Record exn := Exn { exn_class : string; exn_msg : string }.

(** The values a job payload is made of (decoded JSON), and the result
    dictionaries the handler builds. *)
Inductive pyval :=
| VNone
| VBool (b : bool)
| VInt (z : Z)
| VFloat (q : Q)
| VStr (s : string)
| VList (l : list pyval)
| VDict (d : gmap string pyval).

(** Python truth value: [bool(v)]. *)
Definition truthy (v : pyval) : bool :=
  match v with
  | VNone => false
  | VBool b => b
  | VInt z => negb (Z.eqb z 0)
  | VFloat q => negb (Qeq_bool q 0)
  | VStr s => str_nonempty s
  | VList l => match l with [] => false | _ :: _ => true end
  | VDict d => negb (bool_decide (d = ∅))
  end.

Definition truthy_env (o : option string) : bool :=
  match o with
  | None => false
  | Some s => str_nonempty s
  end.

(** The [error] slot of the module's [(result, error)] pairs: [None], a
    caught exception object, or a message string. *)
Inductive pyerr :=
| ErrExn (e : exn)
| ErrStr (s : string).

(** [if error:] *)
Definition truthy_error (error : option pyerr) : bool :=
  match error with
  | None => false
  | Some (ErrExn _) => true
  | Some (ErrStr s) => str_nonempty s
  end.

(** [f'{error}'] *)
Definition format_error (error : option pyerr) : string :=
  match error with
  | None => "None"
  | Some (ErrExn e) => exn_msg e
  | Some (ErrStr s) => s
  end.

(** [f'{x}'] for a string or [None]. *)
Definition format_opt (o : option string) : string := default "None" o.

Definition pyval_of_opt (o : option string) : pyval :=
  match o with
  | None => VNone
  | Some s => VStr s
  end.

(** The name Python prints for the type of a value. *)
Definition type_name (v : pyval) : string :=
  match v with
  | VNone => "NoneType"
  | VBool _ => "bool"
  | VInt _ => "int"
  | VFloat _ => "float"
  | VStr _ => "str"
  | VList _ => "list"
  | VDict _ => "dict"
  end.

Inductive outcome (A : Type) :=
| Ret (a : A)
| Raise (e : exn).
Arguments Ret {A} a.
Arguments Raise {A} e.

(* ===================================================================== *)
(** * The world the worker runs in *)
(* ===================================================================== *)

(** A file system entry.  Paths are the strings the program passes to the
    operating system; the namespace is flat (see [os_makedirs]). *)
Inductive node :=
| File (content : list byte)
| Dir.

(** What a remote server does with a GET: the connection fails, or a
    response arrives with a status, body chunks, and possibly a transfer
    error after the chunks. *)
Inductive http_outcome :=
| HttpUnreachable (e : exn)
| HttpResponse (status : Z) (chunks : list (list byte)) (broken : option exn).

(** The log of the interactions the properties speak about: the entry
    into [generate_wav], the requests to remote servers, the archive
    extraction, the load of the converter, the base speakers read from
    the loaded TTS model, the tone conversions and the uploads. *)
Inductive event :=
| EvGenerateWav (language text : pyval) (reference_speaker : string) (speed : pyval)
| EvHttpGet (url : string)
| EvUrlRetrieve (url filename : string)
| EvExtractAll (zip_filename target_dir : string)
| EvLoadConverter (config_path : string)
| EvSpeakers (keys : list string)
| EvToneConvert (audio_src_path output_path : string)
| EvS3Upload (local_file bucket_name object_name : string).

(** The third-party libraries.  An operation sees and may change the file
    system and the libraries' own state, and returns or raises. *)
Class Collaborators := {
  lib_state : Type;
  converter : Type;
  embedding : Type;
  tts_model : Type;
  s3_client : Type;
  lib_op := fun A : Type =>
    gmap string node -> lib_state -> gmap string node * lib_state * outcome A;
  (** [torch.cuda.is_available()] *)
  torch_cuda_is_available : lib_op bool;
  (** [ToneColorConverter(config_path, device=device)] *)
  ToneColorConverter : string -> string -> lib_op converter;
  (** [tone_color_converter.load_ckpt(path)] *)
  load_ckpt : converter -> string -> lib_op unit;
  (** [se_extractor.get_se(reference_speaker, tone_color_converter, vad=False)] *)
  get_se : string -> converter -> lib_op (embedding * string);
  (** [TTS(language=language, device=device)] *)
  TTS : pyval -> string -> lib_op tts_model;
  (** [model.hps.data.spk2id], in key order *)
  spk2id : tts_model -> list (string * Z);
  (** [torch.load(path, map_location=device)] *)
  torch_load : string -> string -> lib_op embedding;
  (** [model.tts_to_file(text, speaker_id, src_path, speed=speed)] *)
  tts_to_file : tts_model -> pyval -> Z -> string -> pyval -> lib_op unit;
  (** [tone_color_converter.convert(audio_src_path, src_se, tgt_se, output_path, message)] *)
  convert : converter -> string -> embedding -> embedding -> string -> string -> lib_op unit;
  (** [boto3.client('s3', endpoint_url, aws_access_key_id, aws_secret_access_key, config)] *)
  boto3_client : option string -> option string -> option string -> lib_op s3_client;
  (** [s3_client.upload_file(local_file, bucket_name, object_name, ExtraArgs={'ACL': 'public-read'})] *)
  upload_file : s3_client -> string -> string -> string -> lib_op unit;
  (** the members of a zip archive, as [zipfile.ZipFile] reads them *)
  zip_members : list byte -> outcome (list (string * node))
}.

Section Program.
Context `{Libs : Collaborators}.

(** The process and its surroundings at one instant. *)
Record World := MkWorld {
  (** [os.environ] *)
  env : gmap string string;
  (** the file system *)
  fs : gmap string node;
  (** the remote servers, by URL *)
  net : string -> http_outcome;
  (** the wall clock: the reading of the [n]-th call of [datetime.now()] *)
  clock : nat -> datetime;
  clock_reads : nat;
  (** the random generator: its [n]-th draw *)
  rng : nat -> nat;
  rng_draws : nat;
  (** the state of the third-party libraries *)
  libs : lib_state;
  (** the interactions so far, oldest first *)
  trace : list event
}.

Definition set_fs (f : gmap string node) (w : World) : World :=
  MkWorld (env w) f (net w) (clock w) (clock_reads w) (rng w) (rng_draws w)
          (libs w) (trace w).

Definition set_libs (s : lib_state) (w : World) : World :=
  MkWorld (env w) (fs w) (net w) (clock w) (clock_reads w) (rng w)
          (rng_draws w) s (trace w).

Definition set_clock_reads (n : nat) (w : World) : World :=
  MkWorld (env w) (fs w) (net w) (clock w) n (rng w) (rng_draws w)
          (libs w) (trace w).

Definition set_rng_draws (n : nat) (w : World) : World :=
  MkWorld (env w) (fs w) (net w) (clock w) (clock_reads w) (rng w) n
          (libs w) (trace w).

Definition set_trace (t : list event) (w : World) : World :=
  MkWorld (env w) (fs w) (net w) (clock w) (clock_reads w) (rng w)
          (rng_draws w) (libs w) t.

(** ** The monad: state [World], exceptions [exn] *)

Definition M (A : Type) : Type := World -> World * outcome A.

Definition ret {A} (a : A) : M A := fun w => (w, Ret a).

Definition raise {A} (e : exn) : M A := fun w => (w, Raise e).

Definition bind {A B} (m : M A) (k : A -> M B) : M B :=
  fun w =>
    match m w with
    | (w', Ret a) => k a w'
    | (w', Raise e) => (w', Raise e)
    end.

(** [try: m  except Exception as e: h e] *)
Definition try_except {A} (m : M A) (h : exn -> M A) : M A :=
  fun w =>
    match m w with
    | (w', Ret a) => (w', Ret a)
    | (w', Raise e) => h e w'
    end.

Definition gets {A} (f : World -> A) : M A := fun w => (w, Ret (f w)).

Definition modify (f : World -> World) : M unit := fun w => (f w, Ret tt).

(** A call into a third-party library. *)
Definition call {A} (op : lib_op A) : M A :=
  fun w =>
    match op (fs w) (libs w) with
    | (f, s, o) => (set_libs s (set_fs f w), o)
    end.

Definition log (ev : event) : M unit :=
  modify (fun w => set_trace (trace w ++ [ev]) w).

(** [wp m Q w]: the run of [m] from [w] ends in a world and an outcome
    that satisfy [Q]. *)
Definition wp {A} (m : M A) (Q : World -> outcome A -> Prop) (w : World) : Prop :=
  Q (fst (m w)) (snd (m w)).

End Program.

Arguments wp : simpl never.

Notation "'let*' x ':=' m 'in' k" := (bind m (fun x => k))
  (at level 10, x pattern, m at level 100, k at level 200).
Notation "m ';;' k" := (bind m (fun _ => k))
  (at level 100, k at level 200, right associativity).

Section Primitives.
Context `{Libs : Collaborators}.

(** ** Operating system and standard library *)

(** [os.getenv(key)] *)
Definition os_getenv (key : string) : M (option string) :=
  gets (fun w => env w !! key).

(** [os.getenv(key, default)] with a string default *)
Definition os_getenv_default (key default_value : string) : M string :=
  gets (fun w => default default_value (env w !! key)).

(** [os.path.exists(path)] *)
Definition os_path_exists (path : string) : M bool :=
  gets (fun w => match fs w !! path with Some _ => true | None => false end).

(** [os.path.getsize(path)]; a directory reports the size of its entry. *)
Definition os_path_getsize (path : string) : M nat :=
  let* n := gets (fun w => fs w !! path) in
  match n with
  | Some (File content) => ret (length content)
  | Some Dir => ret 4096%nat
  | None =>
      raise (Exn "FileNotFoundError"
               ("[Errno 2] No such file or directory: '" ++ path ++ "'"))
  end.

(** [os.makedirs(path, exist_ok=True)].  Every call of the program names
    a directory whose parent is the working directory or was ensured by
    the call just before, so one level is created. *)
Definition os_makedirs (path : string) : M unit :=
  let* n := gets (fun w => fs w !! path) in
  match n with
  | Some Dir => ret tt
  | Some (File _) =>
      raise (Exn "FileExistsError"
               ("[Errno 17] File exists: '" ++ path ++ "'"))
  | None => modify (fun w => set_fs (<[path := Dir]> (fs w)) w)
  end.

(** [os.remove(path)] *)
Definition os_remove (path : string) : M unit :=
  let* n := gets (fun w => fs w !! path) in
  match n with
  | Some (File _) => modify (fun w => set_fs (delete path (fs w)) w)
  | Some Dir =>
      raise (Exn "IsADirectoryError"
               ("[Errno 21] Is a directory: '" ++ path ++ "'"))
  | None =>
      raise (Exn "FileNotFoundError"
               ("[Errno 2] No such file or directory: '" ++ path ++ "'"))
  end.

(** [open(path, 'wb')]: the file is created or truncated. *)
Definition open_wb (path : string) : M unit :=
  let* n := gets (fun w => fs w !! path) in
  match n with
  | Some Dir =>
      raise (Exn "IsADirectoryError"
               ("[Errno 21] Is a directory: '" ++ path ++ "'"))
  | _ => modify (fun w => set_fs (<[path := File []]> (fs w)) w)
  end.

(** [f.write(chunk)] on the file opened at [path]. *)
Definition file_write (path : string) (chunk : list byte) : M unit :=
  modify (fun w =>
    match fs w !! path with
    | Some (File content) => set_fs (<[path := File (content ++ chunk)]> (fs w)) w
    | _ => set_fs (<[path := File chunk]> (fs w)) w
    end).

(** [open(path, 'rb').read()] *)
Definition open_rb_read (path : string) : M (list byte) :=
  let* n := gets (fun w => fs w !! path) in
  match n with
  | Some (File content) => ret content
  | Some Dir =>
      raise (Exn "IsADirectoryError"
               ("[Errno 21] Is a directory: '" ++ path ++ "'"))
  | None =>
      raise (Exn "FileNotFoundError"
               ("[Errno 2] No such file or directory: '" ++ path ++ "'"))
  end.

(** [datetime.datetime.now()] *)
Definition datetime_now : M datetime :=
  let* t := gets (fun w => clock w (clock_reads w)) in
  modify (fun w => set_clock_reads (S (clock_reads w)) w);;
  ret t.

(** One draw of [random.choices(population, ...)]: the generator's next
    number picks an index of the population. *)
Definition random_choice (population : string) : M ascii :=
  let* r := gets (fun w => rng w (rng_draws w)) in
  modify (fun w => set_rng_draws (S (rng_draws w)) w);;
  ret (default "a"%char
         (String.get (r mod String.length population) population)).

(** [''.join(random.choices(population, k=k))] *)
Fixpoint random_choices (population : string) (k : nat) : M string :=
  match k with
  | O => ret ""
  | S k' =>
      let* c := random_choice population in
      let* rest := random_choices population k' in
      ret (String c rest)
  end.

(** ** HTTP clients *)

(** The body of a response, written chunk by chunk into the open file. *)
Fixpoint write_chunks (path : string) (chunks : list (list byte)) : M unit :=
  match chunks with
  | [] => ret tt
  | chunk :: rest => file_write path chunk;; write_chunks path rest
  end.

Definition raise_if_broken (broken : option exn) : M unit :=
  match broken with
  | Some e => raise e
  | None => ret tt
  end.

(** [requests.get(url, stream=True)] *)
Definition requests_get (url : string)
  : M (Z * list (list byte) * option exn) :=
  log (EvHttpGet url);;
  let* o := gets (fun w => net w url) in
  match o with
  | HttpUnreachable e => raise e
  | HttpResponse status chunks broken => ret (status, chunks, broken)
  end.

(** [r.raise_for_status()] *)
Definition raise_for_status (status : Z) : M unit :=
  if ((400 <=? status) && (status <? 600))%Z
  then raise (Exn "HTTPError" (dec (Z.to_nat status) ++ " Error"))
  else ret tt.

(** [urllib.request.urlretrieve(url, filename)] *)
Definition urlretrieve (url filename : string) : M unit :=
  log (EvUrlRetrieve url filename);;
  let* o := gets (fun w => net w url) in
  match o with
  | HttpUnreachable e => raise e
  | HttpResponse status chunks broken =>
      if (400 <=? status)%Z
      then raise (Exn "HTTPError" ("HTTP Error " ++ dec (Z.to_nat status)))
      else
        open_wb filename;;
        write_chunks filename chunks;;
        raise_if_broken broken
  end.

(** ** zipfile *)

Fixpoint write_members (target_dir : string) (members : list (string * node))
  : M unit :=
  match members with
  | [] => ret tt
  | (name, n) :: rest =>
      modify (fun w => set_fs (<[os_path_join target_dir name := n]> (fs w)) w);;
      write_members target_dir rest
  end.

(** [with zipfile.ZipFile(zip_filename, 'r') as zip_ref:
       zip_ref.extractall(target_dir)] *)
Definition zip_extractall (zip_filename target_dir : string) : M unit :=
  log (EvExtractAll zip_filename target_dir);;
  let* data := open_rb_read zip_filename in
  match zip_members data with
  | Raise e => raise e
  | Ret members => write_members target_dir members
  end.

End Primitives.

Section Worker.
Context `{Libs : Collaborators}.

(** ** Operations on dynamically typed values *)

(** [v[key]] for a string key *)
Definition py_getitem (v : pyval) (key : string) : M pyval :=
  match v with
  | VDict d =>
      match d !! key with
      | Some x => ret x
      | None => raise (Exn "KeyError" ("'" ++ key ++ "'"))
      end
  | VStr _ => raise (Exn "TypeError" "string indices must be integers")
  | VList _ =>
      raise (Exn "TypeError" "list indices must be integers or slices, not str")
  | _ =>
      raise (Exn "TypeError"
               ("'" ++ type_name v ++ "' object is not subscriptable"))
  end.

(** [v.get(key, default)] *)
Definition py_get (v : pyval) (key : string) (default_value : pyval) : M pyval :=
  match v with
  | VDict d => ret (default default_value (d !! key))
  | _ =>
      raise (Exn "AttributeError"
               ("'" ++ type_name v ++ "' object has no attribute 'get'"))
  end.

(** [v[:n]] *)
Definition py_getslice (v : pyval) (n : nat) : M pyval :=
  match v with
  | VStr s => ret (VStr (str_take n s))
  | VList l => ret (VList (take n l))
  | VDict _ => raise (Exn "TypeError" "unhashable type: 'slice'")
  | _ =>
      raise (Exn "TypeError"
               ("'" ++ type_name v ++ "' object is not subscriptable"))
  end.

(** A path argument of an [os] function: [None] is a [TypeError]. *)
Definition path_arg (p : option string) : M string :=
  match p with
  | Some s => ret s
  | None =>
      raise (Exn "TypeError"
               "expected str, bytes or os.PathLike object, not NoneType")
  end.

(** [speaker_ids[speaker_key]] *)
Fixpoint spk_lookup (speaker_ids : list (string * Z)) (key : string) : M Z :=
  match speaker_ids with
  | [] => raise (Exn "KeyError" ("'" ++ key ++ "'"))
  | (k, v) :: rest => if String.eqb k key then ret v else spk_lookup rest key
  end.

(** The result dictionaries of the handler. *)
Definition error_result (msg : string) : pyval :=
  VDict {[ "error" := VStr msg ]}.

Definition success_result (output_audio_path : pyval) : pyval :=
  VDict {[ "output_audio_path" := output_audio_path ]}.

Arguments error_result : simpl never.
Arguments success_result : simpl never.

(** ** The functions of [handler.py]

    [print] writes to the standard output and is left out; an expression
    inside a printed f-string that can raise is kept. *)

(** The [for] loop of [check_directories]: [false] is its early
    [return False, None], [true] the [return True, None] after it. *)
Fixpoint check_directories_loop (base_dir : string) (dirs : list string)
  : M bool :=
  match dirs with
  | [] => ret true
  | dir :: rest =>
      let* present := os_path_exists (os_path_join base_dir dir) in
      if negb present then ret false
      else check_directories_loop base_dir rest
  end.

Definition check_directories (base_dir : string) (dirs : list string)
  : M (option bool * option pyerr) :=
  try_except
    (let* all_present := check_directories_loop base_dir dirs in
     ret (Some all_present, None))
    (fun e => ret (None, Some (ErrExn e))).

Definition download_and_unzip (url target_dir zip_filename : string)
  : M (unit * option pyerr) :=
  try_except
    (urlretrieve url zip_filename;;
     zip_extractall zip_filename target_dir;;
     os_remove zip_filename;;
     ret (tt, None))
    (fun e => ret (tt, Some (ErrExn e))).

Definition generate_unique_filename (base_title extension : string)
  : M (option string * option pyerr) :=
  try_except
    (let* now := datetime_now in
     let timestamp := strftime now in
     let* random_str := random_choices ascii_lowercase_digits 6 in
     let hash_str := str_take 6 (MD5.hexdigest (str_encode base_title)) in
     let filename :=
       base_title ++ "_" ++ timestamp ++ "_" ++ random_str ++ "_"
         ++ hash_str ++ extension in
     ret (Some filename, None))
    (fun e => ret (None, Some (ErrExn e))).

Definition download_file (url local_filename : string)
  : M (option string * option pyerr) :=
  try_except
    (let* (status, chunks, broken) := requests_get url in
     raise_for_status status;;
     open_wb local_filename;;
     write_chunks local_filename chunks;;
     raise_if_broken broken;;
     ret (Some local_filename, None))
    (fun e => ret (None, Some (ErrExn e))).

Definition upload_to_s3 (local_file bucket_name object_name : string)
  : M (option string * option pyerr) :=
  try_except
    (let* endpoint_url := os_getenv "BUCKET_ENDPOINT_URL" in
     let* access_key_id := os_getenv "BUCKET_ACCESS_KEY_ID" in
     let* secret_access_key := os_getenv "BUCKET_SECRET_ACCESS_KEY" in
     let* client := call (boto3_client endpoint_url access_key_id secret_access_key) in
     log (EvS3Upload local_file bucket_name object_name);;
     call (upload_file client local_file bucket_name object_name);;
     let* endpoint := os_getenv "BUCKET_ENDPOINT_URL" in
     ret (Some (format_opt endpoint ++ "/" ++ bucket_name ++ "/" ++ object_name),
          None))
    (fun e => ret (None, Some (ErrExn e))).

Definition sync_checkpoints (url target_dir zip_filename : string)
    (required_dirs : list string) : M (unit * option pyerr) :=
  let* (result, error) := check_directories target_dir required_dirs in
  if truthy_error error then ret (tt, error)
  else if default false result then ret (tt, None)
  else
    let* (_, error) := download_and_unzip url target_dir zip_filename in
    if truthy_error error then ret (tt, error) else ret (tt, None).

(** The loop over [required_files] in [generate_wav]: the first file that
    does not exist, if any. *)
Fixpoint first_missing (required_files : list string) : M (option string) :=
  match required_files with
  | [] => ret None
  | file_path :: rest =>
      let* present := os_path_exists file_path in
      if negb present then ret (Some file_path) else first_missing rest
  end.

(** The loop over [speaker_ids.keys()] in [generate_wav].  The local
    variable [output_audio_path] is unbound ([None]) until the first
    iteration assigns it.  [inl] is the early [return] of the body,
    [inr] the variable when the loop ends. *)
Fixpoint speaker_loop (model : tts_model) (tone_color_converter : converter)
    (target_se : embedding) (text speed : pyval) (device src_path : string)
    (speaker_ids : list (string * Z)) (keys : list string)
    (output_audio_path : option (option string))
  : M ((option string * option pyerr) + option (option string)) :=
  match keys with
  | [] => ret (inr output_audio_path)
  | speaker_key :: rest =>
      let* speaker_id := spk_lookup speaker_ids speaker_key in
      let speaker_key := str_replace "_" "-" (str_lower speaker_key) in
      let* source_se :=
        call (torch_load
                ("checkpoints_v2/base_speakers/ses/" ++ speaker_key ++ ".pth")
                device) in
      call (tts_to_file model text speaker_id src_path speed);;
      let* (output_audio_path, error) :=
        generate_unique_filename "outputs_v2/OpenVoice" ".wav" in
      if truthy_error error then ret (inl (None, error))
      else
        let encode_message := "@MyShell" in
        let* output_path := path_arg output_audio_path in
        log (EvToneConvert src_path output_path);;
        call (convert tone_color_converter src_path source_se target_se
                output_path encode_message);;
        speaker_loop model tone_color_converter target_se text speed device
          src_path speaker_ids rest (Some output_audio_path)
  end.

Definition generate_wav (language text : pyval) (reference_speaker : string)
    (speed : pyval) : M (option string * option pyerr) :=
  log (EvGenerateWav language text reference_speaker speed);;
  try_except
    (let* bucket_name := os_getenv_default "BUCKET_NAME" "OpenVoice" in
     let ckpt_converter := "checkpoints_v2/converter" in
     os_makedirs "checkpoints_v2";;
     os_makedirs "checkpoints_v2/base_speakers";;
     os_makedirs "checkpoints_v2/base_speakers/ses";;
     os_makedirs "checkpoints_v2/converter";;
     let output_dir := "outputs_v2" in
     os_makedirs "outputs_v2";;
     os_makedirs "tmp";;
     os_makedirs "processed";;
     let src_path := output_dir ++ "/tmp.wav" in
     let* cuda := call torch_cuda_is_available in
     let device := if cuda then "cuda:0" else "cpu" in
     log (EvLoadConverter (ckpt_converter ++ "/config.json"));;
     let* tone_color_converter :=
       call (ToneColorConverter (ckpt_converter ++ "/config.json") device) in
     call (load_ckpt tone_color_converter (ckpt_converter ++ "/checkpoint.pth"));;
     let* present := os_path_exists reference_speaker in
     if negb present then
       ret (None, Some (ErrStr ("Reference speaker file not found: "
                                  ++ reference_speaker)))
     else
       let required_files :=
         [ ckpt_converter ++ "/config.json";
           ckpt_converter ++ "/checkpoint.pth" ] in
       let* missing := first_missing required_files in
       match missing with
       | Some file_path =>
           ret (None, Some (ErrStr ("Required checkpoint file not found: "
                                      ++ file_path)))
       | None =>
           let* (target_se, audio_name) :=
             call (get_se reference_speaker tone_color_converter) in
           let* model := call (TTS language device) in
           let speaker_ids := spk2id model in
           log (EvSpeakers (map fst speaker_ids));;
           let* exit :=
             speaker_loop model tone_color_converter target_se text speed
               device src_path speaker_ids (map fst speaker_ids) None in
           match exit with
           | inl returned => ret returned
           | inr None =>
               raise (Exn "UnboundLocalError"
                        "cannot access local variable 'output_audio_path' where it is not associated with a value")
           | inr (Some output_audio_path) =>
               let* output_audio_path := path_arg output_audio_path in
               let object_name := os_path_basename output_audio_path in
               let* endpoint_url := os_getenv "BUCKET_ENDPOINT_URL" in
               let* access_key_id := os_getenv "BUCKET_ACCESS_KEY_ID" in
               let* secret_access_key := os_getenv "BUCKET_SECRET_ACCESS_KEY" in
               if truthy_env endpoint_url && truthy_env access_key_id
                  && truthy_env secret_access_key
               then
                 let* (uploaded_url, error) :=
                   upload_to_s3 output_audio_path bucket_name object_name in
                 if truthy_error error then ret (None, error)
                 else ret (uploaded_url, None)
               else
                 try_except
                   (let* audio_data := open_rb_read output_audio_path in
                    let audio_base64 := Base64.b64encode audio_data in
                    ret (Some ("data:audio/wav;base64," ++ audio_base64), None))
                   (fun e =>
                      ret (None, Some (ErrStr ("Failed to encode audio file: "
                                                 ++ exn_msg e))))
           end
       end)
    (fun e => ret (None, Some (ErrExn e))).

Definition handler (job : pyval) : M pyval :=
  try_except
    (let* job_input := py_getitem job "input" in
     os_makedirs "tmp";;
     let* default_text := os_getenv "DEFAULT_TEXT" in
     let* text := py_get job_input "text" (pyval_of_opt default_text) in
     if negb (truthy text) then ret (error_result "Text is required")
     else
       let* default_language := os_getenv_default "DEFAULT_LANGUAGE" "EN" in
       let* language := py_get job_input "language" (VStr default_language) in
       let* default_voice_url := os_getenv "DEFAULT_VOICE_URL" in
       let* voice_url :=
         py_get job_input "voice_url" (pyval_of_opt default_voice_url) in
       if negb (truthy voice_url) then ret (error_result "Voice URL is required")
       else
         let* default_speed := os_getenv "DEFAULT_SPEED" in
         let* speed :=
           py_get job_input "speed"
             (match default_speed with
              | Some s => VStr s
              | None => VFloat 1
              end) in
         (* the statements after the [if]/[else] on the kind of [voice_url] *)
         let check_and_generate (reference_speaker : option string) : M pyval :=
           let* reference_speaker := path_arg reference_speaker in
           let* present := os_path_exists reference_speaker in
           if negb present then ret (error_result "Voice file does not exist")
           else
             let* file_size := os_path_getsize reference_speaker in
             if (file_size <? 1000)%nat then
               ret (error_result ("Voice file too small: " ++ dec file_size
                                    ++ " bytes"))
             else
               py_getslice text 50;;
               let* (output_audio_path, error) :=
                 generate_wav language text reference_speaker speed in
               if truthy_error error then
                 ret (error_result ("Failed to generate audio: "
                                      ++ format_error error))
               else ret (success_result (pyval_of_opt output_audio_path)) in
         match voice_url with
         | VStr url =>
             if str_startswith "http://" url || str_startswith "https://" url
             then
               let* (reference_speaker, error) :=
                 download_file url "tmp/audio.wav" in
               if truthy_error error then
                 ret (error_result ("Failed to download voice file: "
                                      ++ format_error error))
               else check_and_generate reference_speaker
             else
               let reference_speaker := url in
               let* present := os_path_exists reference_speaker in
               if negb present then
                 ret (error_result ("Local voice file not found: "
                                      ++ reference_speaker))
               else check_and_generate (Some reference_speaker)
         | _ =>
             raise (Exn "AttributeError"
                      ("'" ++ type_name voice_url
                         ++ "' object has no attribute 'startswith'"))
         end)
    (fun e => ret (error_result ("Unexpected error: " ++ exn_msg e))).

(** The constants of the [__main__] block. *)
Definition main_url : string :=
  "https://myshell-public-repo-host.s3.amazonaws.com/openvoice/checkpoints_v2_0417.zip".

Definition main_target_dir : string := "/app".

Definition main_zip_filename : string :=
  os_path_join main_target_dir "checkpoints_v2_0417.zip".

Definition main_required_dirs : list string :=
  [ "checkpoints_v2";
    "checkpoints_v2/base_speakers";
    "checkpoints_v2/base_speakers/ses";
    "checkpoints_v2/converter" ].

(** ** Vocabulary of the properties *)

(** The number of entries into [generate_wav] recorded in a log. *)
Definition synthesis_calls (t : list event) : nat :=
  length (List.filter (fun ev => match ev with
                                 | EvGenerateWav _ _ _ _ => true
                                 | _ => false
                                 end) t).

(** Every directory of [dirs] exists under [base_dir]. *)
Definition all_present (w : World) (base_dir : string) (dirs : list string)
  : bool :=
  forallb (fun dir => match fs w !! os_path_join base_dir dir with
                      | Some _ => true
                      | None => false
                      end) dirs.

(** The three storage variables are in the environment. *)
Definition storage_set (e : gmap string string) : bool :=
  bool_decide (is_Some (e !! "BUCKET_ENDPOINT_URL"))
  && bool_decide (is_Some (e !! "BUCKET_ACCESS_KEY_ID"))
  && bool_decide (is_Some (e !! "BUCKET_SECRET_ACCESS_KEY")).

(** The three storage variables are in the environment and not empty. *)
Definition storage_configured (e : gmap string string) : bool :=
  truthy_env (e !! "BUCKET_ENDPOINT_URL")
  && truthy_env (e !! "BUCKET_ACCESS_KEY_ID")
  && truthy_env (e !! "BUCKET_SECRET_ACCESS_KEY").

(** The URL [upload_to_s3] returns for an object. *)
Definition object_url (e : gmap string string) (object_name : string) : string :=
  format_opt (e !! "BUCKET_ENDPOINT_URL") ++ "/"
    ++ default "OpenVoice" (e !! "BUCKET_NAME") ++ "/" ++ object_name.

(** What [generate_wav] adds to the log on a successful run: its entry,
    the load of the converter, the base speakers [keys] of the loaded
    model, one tone conversion per output path, and the uploads. *)
Definition synthesis_log (language text : pyval) (reference_speaker : string)
    (speed : pyval) (keys paths : list string) (uploads : list event)
  : list event :=
  ([ EvGenerateWav language text reference_speaker speed;
     EvLoadConverter "checkpoints_v2/converter/config.json";
     EvSpeakers keys ]
   ++ map (EvToneConvert "outputs_v2/tmp.wav") paths ++ uploads)%list.

(** How the output file [path] of a run from [w] to [w'] is delivered as
    [s]: uploaded under its base name and returned as the object URL
    when the storage variables are configured; otherwise read back and
    returned as a data URI. *)
Definition delivered (w w' : World) (path s : string) (uploads : list event)
  : Prop :=
  if storage_configured (env w)
  then s = object_url (env w) (os_path_basename path) /\
       uploads = [ EvS3Upload path (default "OpenVoice" (env w !! "BUCKET_NAME"))
                     (os_path_basename path) ]
  else uploads = [] /\
       exists data,
         fs w' !! path = Some (File data) /\
         s = "data:audio/wav;base64," ++ Base64.b64encode data.

(** A successful run of [generate_wav] from [w] to [w'] returning [s]:
    one output path per base speaker, the last of them delivered. *)
Definition synthesized (language text : pyval) (reference_speaker : string)
    (speed : pyval) (w w' : World) (s : string) : Prop :=
  exists keys paths final uploads,
    length paths = length keys /\
    last paths = Some final /\
    trace w' = (trace w ++ synthesis_log language text reference_speaker speed
                             keys paths uploads)%list /\
    delivered w w' final s uploads.

(** What a run of [generate_wav] from [w] leaves: the environment as it
    was, and either an error with no result, or a result as [synthesized]
    describes it. *)
Definition generate_wav_post (language text : pyval) (reference_speaker : string)
    (speed : pyval) (w w' : World) (r : option string) (error : option pyerr)
  : Prop :=
  env w' = env w /\
  ((truthy_error error = true /\ r = None) \/
   (error = None /\
    exists s, r = Some s /\
              synthesized language text reference_speaker speed w w' s)).

(** What the handler returns from [w]: an error dictionary, or the
    delivery of an output file of a run of [generate_wav]. *)
Definition handler_post (w w' : World) (v : pyval) : Prop :=
  (exists msg, v = error_result msg) \/
  (exists s path uploads w0,
     v = success_result (VStr s) /\ env w0 = env w /\
     delivered w0 w' path s uploads).

(** The timestamp and the random suffix a call of
    [generate_unique_filename] takes from a world. *)
Definition timestamp_at (w : World) : string :=
  strftime (clock w (clock_reads w)).

Definition suffix_at (w : World) : outcome string :=
  snd (random_choices ascii_lowercase_digits 6 w).

(** The scratch directory [tmp] can be ensured: no regular file is in
    its place. *)
Definition scratch_ok (w : World) : bool :=
  match fs w !! "tmp" with
  | Some (File _) => false
  | _ => true
  end.


(** The test of the handler on the kind of [voice_url]. *)
Definition is_http (url : string) : bool :=
  str_startswith "http://" url || str_startswith "https://" url.

(** [job_input.get(key, os.getenv(variable, None))] *)
Definition field_or_env (input : gmap string pyval) (key : string)
    (w : World) (variable : string) : pyval :=
  default (pyval_of_opt (env w !! variable)) (input !! key).

(** ** Vocabulary of the further properties *)

(** Every character of [s] passes the test [f]. *)
Fixpoint str_all (f : ascii -> bool) (s : string) : bool :=
  match s with
  | EmptyString => true
  | String c r => f c && str_all f r
  end.

(** A character of [string.ascii_lowercase + string.digits]. *)
Definition is_lowercase_or_digit (c : ascii) : bool :=
  existsb (Ascii.eqb c) (list_ascii_of_string ascii_lowercase_digits).

(** A digit of [hexdigest()]. *)
Definition is_hex_digit (c : ascii) : bool :=
  existsb (Ascii.eqb c) (list_ascii_of_string "0123456789abcdef").

(** The file system once the members of an archive are written under
    [target_dir], in the order of the archive. *)
Definition extracted (target_dir : string) (members : list (string * node))
    (f : gmap string node) : gmap string node :=
  fold_left (fun f member => <[os_path_join target_dir (fst member) := snd member]> f)
    members f.

(** A server that refuses to serve [urlretrieve]: it cannot be reached,
    or it answers with an error status. *)
Definition refuses_retrieval (o : http_outcome) : bool :=
  match o with
  | HttpUnreachable _ => true
  | HttpResponse status _ _ => (400 <=? status)%Z
  end.

(** A server that refuses to serve [requests.get] followed by
    [raise_for_status]. *)
Definition refuses_request (o : http_outcome) : bool :=
  match o with
  | HttpUnreachable _ => true
  | HttpResponse status _ _ => ((400 <=? status) && (status <? 600))%Z
  end.







(** The number of requests for the voice reference in a log. *)
Definition request_count (t : list event) : nat :=
  length (List.filter (fun ev => match ev with
                                 | EvHttpGet _ => true
                                 | _ => false
                                 end) t).


(** A number or a truth value: a value Python can neither slice nor
    ask for [startswith]. *)
Definition is_scalar (v : pyval) : bool :=
  match v with
  | VBool _ | VInt _ | VFloat _ => true
  | _ => false
  end.

Definition is_str (v : pyval) : bool :=
  match v with
  | VStr _ => true
  | _ => false
  end.

Definition is_dict (v : pyval) : bool :=
  match v with
  | VDict _ => true
  | _ => false
  end.

(** A character other than the path separator. *)
Definition is_not_slash (c : ascii) : bool := negb (Ascii.eqb c "/").

End Worker.

(* ===================================================================== *)
(** * A small implementation of the collaborators, for concrete runs *)
(* ===================================================================== *)

Module Demo.

Definition no_such_file (path : string) : exn :=
  Exn "FileNotFoundError"
    ("[Errno 2] No such file or directory: '" ++ path ++ "'").

(** An operation that needs the file at [path] and returns [a]. *)
Definition reading {A} (path : string) (a : A)
  : gmap string node -> unit -> gmap string node * unit * outcome A :=
  fun f s =>
    match f !! path with
    | Some (File _) => (f, s, Ret a)
    | _ => (f, s, Raise (no_such_file path))
    end.

(** An operation that writes [content] at [path]. *)
Definition writing (path : string) (content : list byte)
  : gmap string node -> unit -> gmap string node * unit * outcome unit :=
  fun f s => (<[path := File content]> f, s, Ret tt).

Definition wave : list byte := [x52; x49; x46; x46; x24; x00; x00; x00].

Definition collaborators : Collaborators := {|
  lib_state := unit;
  converter := unit;
  embedding := unit;
  tts_model := unit;
  s3_client := unit;
  torch_cuda_is_available := fun f s => (f, s, Ret false);
  ToneColorConverter := fun config_path _ => reading config_path tt;
  load_ckpt := fun _ path => reading path tt;
  get_se := fun reference_speaker _ => reading reference_speaker (tt, "reference");
  TTS := fun _ _ f s => (f, s, Ret tt);
  spk2id := fun _ => [("EN-US", 0%Z); ("EN_INDIA", 1%Z)];
  torch_load := fun path _ => reading path tt;
  tts_to_file := fun _ _ _ src_path _ => writing src_path wave;
  convert := fun _ _ _ _ output_path _ => writing output_path wave;
  boto3_client := fun _ _ _ f s => (f, s, Ret tt);
  upload_file := fun _ local_file _ _ => reading local_file tt;
  zip_members := fun _ => Ret []
|}.

#[local] Existing Instance collaborators.

Definition checkpoints : gmap string node :=
  <["checkpoints_v2/converter/config.json" := File [x7b; x7d]]>
  (<["checkpoints_v2/converter/checkpoint.pth" := File [x00]]>
  (<["checkpoints_v2/base_speakers/ses/en-us.pth" := File [x00]]>
  (<["checkpoints_v2/base_speakers/ses/en-india.pth" := File [x00]]> ∅))).

Definition unreachable : exn :=
  Exn "ConnectionError" "Max retries exceeded".

(** A worker with the checkpoints in place, a reference recording of
    1200 bytes at [voices/ref.wav], a short file at [voices/short.wav],
    one reachable URL, and no environment variables. *)
Definition world : World := {|
  env := ∅;
  fs := <["voices/ref.wav" := File (repeat x00 1200)]>
        (<["voices/short.wav" := File (repeat x00 999)]> checkpoints);
  net := fun url =>
    if String.eqb url "https://example.com/ref.wav"
    then HttpResponse 200 [repeat x00 1000; repeat x00 200] None
    else if String.eqb url "https://example.com/short.wav"
    then HttpResponse 200 [repeat x00 512] None
    else HttpUnreachable unreachable;
  clock := fun _ => DateTime 2024 5 17 9 30 0;
  clock_reads := 0;
  rng := fun n => n;
  rng_draws := 0;
  libs := tt;
  trace := []
|}.

(** The same worker with the checkpoint directories under [/app]. *)
Definition provisioned : World :=
  set_fs (<["/app/checkpoints_v2" := Dir]>
          (<["/app/checkpoints_v2/base_speakers" := Dir]>
          (<["/app/checkpoints_v2/base_speakers/ses" := Dir]>
          (<["/app/checkpoints_v2/converter" := Dir]> (fs world)))))
    world.

Definition with_env (e : gmap string string) (w : World) : World :=
  MkWorld e (fs w) (net w) (clock w) (clock_reads w) (rng w) (rng_draws w)
          (libs w) (trace w).

Definition with_rng (r : nat -> nat) (w : World) : World :=
  MkWorld (env w) (fs w) (net w) (clock w) (clock_reads w) r (rng_draws w)
          (libs w) (trace w).

Definition storage_env : gmap string string :=
  <["BUCKET_ENDPOINT_URL" := "https://s3.example.com"]>
  (<["BUCKET_ACCESS_KEY_ID" := "key"]>
  (<["BUCKET_SECRET_ACCESS_KEY" := "secret"]> ∅)).

Definition defaults_env : gmap string string :=
  <["DEFAULT_TEXT" := "Hello from the environment"]>
  (<["DEFAULT_VOICE_URL" := "voices/ref.wav"]> ∅).

Definition job_dict (input : gmap string pyval) : gmap string pyval :=
  <["id" := VStr "job-1"]> {[ "input" := VDict input ]}.

Definition job (input : gmap string pyval) : pyval := VDict (job_dict input).

Definition local_job : pyval :=
  job (<["text" := VStr "Hello world"]> {[ "voice_url" := VStr "voices/ref.wav" ]}).

(** ** Further collaborators and worlds *)

(** The collaborators of [collaborators], with a TTS model of the given
    base speakers and archives of the given members. *)
Definition collaborators_with (speakers : list (string * Z))
    (members : list (string * node)) : Collaborators := {|
  lib_state := unit;
  converter := unit;
  embedding := unit;
  tts_model := unit;
  s3_client := unit;
  torch_cuda_is_available := fun f s => (f, s, Ret false);
  ToneColorConverter := fun config_path _ => reading config_path tt;
  load_ckpt := fun _ path => reading path tt;
  get_se := fun reference_speaker _ => reading reference_speaker (tt, "reference");
  TTS := fun _ _ f s => (f, s, Ret tt);
  spk2id := fun _ => speakers;
  torch_load := fun path _ => reading path tt;
  tts_to_file := fun _ _ _ src_path _ => writing src_path wave;
  convert := fun _ _ _ _ output_path _ => writing output_path wave;
  boto3_client := fun _ _ _ f s => (f, s, Ret tt);
  upload_file := fun _ local_file _ _ => reading local_file tt;
  zip_members := fun _ => Ret members
|}.

(** A TTS model without base speakers. *)
Definition mute : Collaborators := collaborators_with [] [].

(** An archive that holds the four checkpoint directories and the two
    files of the converter. *)
Definition checkpoint_members : list (string * node) :=
  [ ("checkpoints_v2", Dir);
    ("checkpoints_v2/base_speakers", Dir);
    ("checkpoints_v2/base_speakers/ses", Dir);
    ("checkpoints_v2/converter", Dir);
    ("checkpoints_v2/converter/config.json", File [x7b; x7d]);
    ("checkpoints_v2/converter/checkpoint.pth", File [x00]) ].

Definition unpacking : Collaborators :=
  collaborators_with [("EN-US", 0%Z)] checkpoint_members.

(** The worker of [world] for other collaborators of this kind, with the
    given remote servers. *)
Definition world_of (L : Collaborators) (s : @lib_state L)
    (servers : string -> http_outcome) : @World L :=
  @MkWorld L ∅ (fs world) servers (clock world) 0 (rng world) 0 s [].

Definition with_net (servers : string -> http_outcome) (w : World) : World :=
  MkWorld (env w) (fs w) servers (clock w) (clock_reads w) (rng w)
          (rng_draws w) (libs w) (trace w).

Definition archive_bytes : list (list byte) := [[x50; x4b]; [x03; x04]].

(** A server that serves the archive in two chunks. *)
Definition serving : string -> http_outcome :=
  fun _ => HttpResponse 200 archive_bytes None.



(** A server that answers 404. *)
Definition missing : string -> http_outcome :=
  fun _ => HttpResponse 404 [] None.

End Demo.

(* ===================================================================== *)
(** * The start-up code: [map_network_volume] *)
(* ===================================================================== *)

(** [map_network_volume] is the one function of the module that makes and
    tests symbolic links, so its file system has them: an entry is a
    file or a directory, or a link to a path.  Paths are names, as in
    [World]; a link holds the absolute path it points to, and an entry
    has the one name it was made under.  The function
    calls no third-party library and reads no clock, so its state is
    the file system alone. *)
Module Volume.

Inductive entry :=
| Node (n : node)
| Symlink (target : string).

Abbreviation tree := (gmap string entry).

(** What [path] leads to when links are followed, as [os.stat] does; a
    chain of more than [fuel] links leads nowhere (ELOOP). *)
Fixpoint follow (fuel : nat) (t : tree) (path : string) : option node :=
  match t !! path with
  | Some (Node n) => Some n
  | Some (Symlink target) =>
      match fuel with
      | O => None
      | S fuel' => follow fuel' t target
      end
  | None => None
  end.

(** The kernel follows at most 40 links. *)
Definition stat (t : tree) (path : string) : option node := follow 40 t path.

(** [p[:p.rfind('/') + 1]] *)
Fixpoint upto_last_slash (p : string) : string :=
  match p with
  | EmptyString => ""
  | String c r =>
      let rest := upto_last_slash r in
      if Ascii.eqb c "/" then String c rest
      else match rest with
           | EmptyString => ""
           | String _ _ => String c rest
           end
  end.

(** [s.rstrip('/')] *)
Fixpoint rstrip_slash (s : string) : string :=
  match s with
  | EmptyString => ""
  | String c r =>
      match rstrip_slash r with
      | EmptyString => if Ascii.eqb c "/" then "" else String c ""
      | String _ _ as r' => String c r'
      end
  end.

(** [os.path.dirname(p)] (POSIX) *)
Definition os_path_dirname (p : string) : string :=
  let head := upto_last_slash p in
  match rstrip_slash head with
  | EmptyString => head
  | String _ _ as stripped => stripped
  end.

(** ** The monad: state [tree], exceptions [exn] *)

Definition V (A : Type) : Type := tree -> tree * outcome A.

Definition ret {A} (a : A) : V A := fun t => (t, Ret a).

Definition raise {A} (e : exn) : V A := fun t => (t, Raise e).

Definition bind {A B} (m : V A) (k : A -> V B) : V B :=
  fun t =>
    match m t with
    | (t', Ret a) => k a t'
    | (t', Raise e) => (t', Raise e)
    end.

(** [try: m  except Exception as e: h e] *)
Definition try_except {A} (m : V A) (h : exn -> V A) : V A :=
  fun t =>
    match m t with
    | (t', Ret a) => (t', Ret a)
    | (t', Raise e) => h e t'
    end.

Definition gets {A} (f : tree -> A) : V A := fun t => (t, Ret (f t)).

Definition modify (f : tree -> tree) : V unit := fun t => (f t, Ret tt).

Notation "'let+' x ':=' m 'in' k" := (bind m (fun x => k))
  (at level 10, x pattern, m at level 100, k at level 200).
Notation "m ';+' k" := (bind m (fun _ => k))
  (at level 100, k at level 200, right associativity).

(** ** Operating system *)

(** [os.path.exists(path)]: false for a link that leads nowhere. *)
Definition os_path_exists (path : string) : V bool :=
  gets (fun t => match stat t path with Some _ => true | None => false end).

(** [os.path.isdir(path)] *)
Definition os_path_isdir (path : string) : V bool :=
  gets (fun t => match stat t path with Some Dir => true | _ => false end).

(** [os.path.islink(path)] *)
Definition os_path_islink (path : string) : V bool :=
  gets (fun t => match t !! path with Some (Symlink _) => true | _ => false end).

(** The error of creating an entry at [path], if any: its parent has to
    lead to a directory, and nothing, not even a dangling link, may be
    at [path].  [names] is the end of the message: the quoted path of
    the call, or both paths for a call that takes two. *)
Definition cannot_create (t : tree) (path names : string) : option exn :=
  match stat t (os_path_dirname path) with
  | Some Dir =>
      match t !! path with
      | Some _ =>
          Some (Exn "FileExistsError"
                  ("[Errno 17] File exists: " ++ names))
      | None => None
      end
  | Some (File _) =>
      Some (Exn "NotADirectoryError" ("[Errno 20] Not a directory: " ++ names))
  | None =>
      Some (Exn "FileNotFoundError"
              ("[Errno 2] No such file or directory: " ++ names))
  end.

(** [repr(path)] of a path without quotes or escapes. *)
Definition quoted (path : string) : string := "'" ++ path ++ "'".

(** [os.mkdir(path)] *)
Definition os_mkdir (path : string) : V unit :=
  let+ refused := gets (fun t => cannot_create t path (quoted path)) in
  match refused with
  | Some e => raise e
  | None => modify (fun t => <[path := Node Dir]> t)
  end.

(** [os.makedirs(path, exist_ok=True)]: [mkdir], and its error is
    dropped when [path] is a directory by then.  The parent of the one
    path the function passes was just seen to exist, so no parent is
    made first. *)
Definition os_makedirs (path : string) : V unit :=
  try_except (os_mkdir path)
    (fun e =>
       let+ is_dir := os_path_isdir path in
       if is_dir then ret tt else raise e).

(** [os.remove(path)]: a file or a link is unlinked. *)
Definition os_remove (path : string) : V unit :=
  let+ e := gets (fun t => t !! path) in
  match e with
  | Some (Node (File _)) | Some (Symlink _) => modify (fun t => delete path t)
  | Some (Node Dir) =>
      raise (Exn "IsADirectoryError" ("[Errno 21] Is a directory: " ++ quoted path))
  | None =>
      raise (Exn "FileNotFoundError"
               ("[Errno 2] No such file or directory: " ++ quoted path))
  end.

(** [os.symlink(src, dst)]; its errors name both paths. *)
Definition os_symlink (src dst : string) : V unit :=
  let+ refused :=
    gets (fun t => cannot_create t dst (quoted src ++ " -> " ++ quoted dst)) in
  match refused with
  | Some e => raise e
  | None => modify (fun t => <[dst := Symlink src]> t)
  end.

(** [shutil.rmtree(path)].  The module does not import [shutil]: when
    the call is reached the name is unbound. *)
Definition shutil_rmtree (path : string) : V unit :=
  raise (Exn "NameError" "name 'shutil' is not defined").

(** ** [map_network_volume] *)

Definition map_network_volume : V (unit * option pyerr) :=
  try_except
    (let+ at_runpod := os_path_exists "/runpod-volume" in
     let+ network_volume_path :=
       if at_runpod then ret (Some "/runpod-volume")
       else
         let+ at_workspace := os_path_exists "/workspace" in
         if at_workspace then ret (Some "/workspace") else ret None in
     match network_volume_path with
     | Some network_volume_path =>
         os_makedirs (network_volume_path ++ "/OpenVoice");+
         let+ is_link := os_path_islink "/app/checkpoints_v2" in
         let+ present :=
           if is_link then ret true
           else os_path_exists "/app/checkpoints_v2" in
         (if present then
            let+ is_dir := os_path_isdir "/app/checkpoints_v2" in
            if is_dir then shutil_rmtree "/app/checkpoints_v2"
            else os_remove "/app/checkpoints_v2"
          else ret tt);+
         os_symlink (network_volume_path ++ "/OpenVoice") "/app/checkpoints_v2"
     | None => ret tt
     end;+
     ret (tt, None))
    (fun e => ret (tt, Some (ErrExn e))).

(** ** Vocabulary of the properties *)

(** The mount point the function settles on. *)
Definition network_volume (t : tree) : option string :=
  match stat t "/runpod-volume" with
  | Some _ => Some "/runpod-volume"
  | None =>
      match stat t "/workspace" with
      | Some _ => Some "/workspace"
      | None => None
      end
  end.

(** The exception of the call of [shutil.rmtree]. *)
Definition shutil_is_unbound : exn :=
  Exn "NameError" "name 'shutil' is not defined".

(** A container as it starts for the first time with a volume mounted
    at [volume], the first of the two mount points that is there: the
    mount point and [/app] are directories, the checkpoint directory of
    the volume is a directory or not there yet, and
    [/app/checkpoints_v2] is absent or a regular file. *)
Definition first_start (t : tree) (volume : string) : Prop :=
  (volume = "/runpod-volume" \/
   (volume = "/workspace" /\ t !! "/runpod-volume" = None)) /\
  t !! volume = Some (Node Dir) /\
  t !! "/app" = Some (Node Dir) /\
  (t !! (volume ++ "/OpenVoice") = None \/
   t !! (volume ++ "/OpenVoice") = Some (Node Dir)) /\
  (t !! "/app/checkpoints_v2" = None \/
   exists content, t !! "/app/checkpoints_v2" = Some (Node (File content))).

(** A container with the volume at [/runpod-volume] holding the
    checkpoints, and nothing yet at [/app/checkpoints_v2]. *)
Definition fresh : tree :=
  <["/runpod-volume" := Node Dir]>
  (<["/runpod-volume/OpenVoice" := Node Dir]>
  (<["/app" := Node Dir]> ∅)).

(** A container whose image has the checkpoints in a directory. *)
Definition baked : tree :=
  <["/app/checkpoints_v2" := Node Dir]>
  (<["/workspace" := Node Dir]>
  (<["/app" := Node Dir]> ∅)).

End Volume.

(* ===================================================================== *)
(** * Reasoning about runs *)
(* ===================================================================== *)

Section Reasoning.
Context `{Libs : Collaborators}.

Lemma wp_run {A} (m : M A) Q w :
  wp m Q w <-> exists w' o, m w = (w', o) /\ Q w' o.
Proof.
  unfold wp. split.
  - intros H. exists (fst (m w)), (snd (m w)). split; [apply surjective_pairing | exact H].
  - intros (w' & o & E & H). rewrite E. exact H.
Qed.

Lemma wp_conseq {A} (m : M A) (Q Q' : World -> outcome A -> Prop) w :
  wp m Q w -> (forall w' o, Q w' o -> Q' w' o) -> wp m Q' w.
Proof. unfold wp. auto. Qed.

Lemma wp_ret {A} (a : A) Q w : Q w (Ret a) -> wp (ret a) Q w.
Proof. exact id. Qed.

Lemma wp_raise {A} (e : exn) (Q : World -> outcome A -> Prop) w :
  Q w (Raise e) -> wp (raise e) Q w.
Proof. exact id. Qed.

Lemma wp_gets {A} (f : World -> A) Q w : Q w (Ret (f w)) -> wp (gets f) Q w.
Proof. exact id. Qed.

Lemma wp_modify (f : World -> World) Q w : Q (f w) (Ret tt) -> wp (modify f) Q w.
Proof. exact id. Qed.

Lemma wp_log (ev : event) Q w :
  Q (set_trace (trace w ++ [ev]) w) (Ret tt) -> wp (log ev) Q w.
Proof. exact id. Qed.

Lemma wp_call {A} (op : lib_op A) Q w :
  (forall f s o, Q (set_libs s (set_fs f w)) o) -> wp (call op) Q w.
Proof.
  intros H. unfold wp, call. destruct (op (fs w) (libs w)) as [[f s] o]. apply H.
Qed.

Lemma wp_bind {A B} (m : M A) (k : A -> M B) Q w :
  wp m (fun w' o => match o with
                    | Ret a => wp (k a) Q w'
                    | Raise e => Q w' (Raise e)
                    end) w ->
  wp (bind m k) Q w.
Proof.
  unfold wp, bind. destruct (m w) as [w' [a | e]]; simpl; auto.
Qed.

Lemma wp_try {A} (m : M A) (h : exn -> M A) Q w :
  wp m (fun w' o => match o with
                    | Ret a => Q w' (Ret a)
                    | Raise e => wp (h e) Q w'
                    end) w ->
  wp (try_except m h) Q w.
Proof.
  unfold wp, try_except. destruct (m w) as [w' [a | e]]; simpl; auto.
Qed.

End Reasoning.

(** One step of a run: the rule of the construct at the head.  A
    primitive at the head is replaced by its definition. *)
Ltac wp_prim :=
  lazymatch goal with
  | |- wp ?m ?Q ?w =>
      let m' := eval cbv beta delta
        [os_getenv os_getenv_default os_path_exists os_path_getsize
         os_makedirs os_remove open_wb file_write open_rb_read datetime_now
         random_choice raise_if_broken requests_get raise_for_status
         urlretrieve zip_extractall py_getitem py_get py_getslice path_arg]
        in m in
      progress (change (wp m' Q w))
  end.

(** The projections of an updated world, and the small computations on
    values, are evaluated as they appear. *)
Tactic Notation "wp_calc" "in" "*" :=
  cbn [env fs net clock clock_reads rng rng_draws libs trace set_fs set_libs
       set_clock_reads set_rng_draws set_trace
       from_option id truthy truthy_env truthy_error format_error format_opt
       pyval_of_opt str_nonempty negb andb orb exn_msg exn_class
       fst snd] in *.

Tactic Notation "wp_calc" :=
  cbn [env fs net clock clock_reads rng rng_draws libs trace set_fs set_libs
       set_clock_reads set_rng_draws set_trace
       from_option id truthy truthy_env truthy_error format_error format_opt
       pyval_of_opt str_nonempty negb andb orb exn_msg exn_class
       fst snd].

Ltac wp_step :=
  lazymatch goal with
  | |- wp (ret _) _ _ => apply wp_ret
  | |- wp (raise _) _ _ => apply wp_raise
  | |- wp (gets _) _ _ => apply wp_gets
  | |- wp (modify _) _ _ => apply wp_modify
  | |- wp (log _) _ _ => apply wp_log
  | |- wp (call _) _ _ => apply wp_call; intros ? ? [?|?]
  | |- wp (bind _ _) _ _ => apply wp_bind
  | |- wp (try_except _ _) _ _ => apply wp_try
  | |- wp (match ?x with _ => _ end) _ _ => destruct x eqn:?
  | |- wp _ _ _ => wp_prim
  end; wp_calc.

(** A run: step, rewrite with [tac], evaluate; until nothing applies. *)
Tactic Notation "wp_run" "with" tactic3(tac) :=
  repeat (wp_step; tac; wp_calc).

(* ===================================================================== *)
(** * Properties *)
(* ===================================================================== *)

Section Properties.
Context `{Libs : Collaborators}.

(** ** Worlds and strings *)

Lemma set_fs_same (w : World) : set_fs (fs w) w = w.
Proof. destruct w; reflexivity. Qed.

Lemma str_length_app (a b : string) :
  String.length (a ++ b) = String.length a + String.length b.
Proof. induction a; simpl; auto. Qed.

Lemma append_inj_length (a c b d : string) :
  String.length a = String.length c -> a ++ b = c ++ d -> a = c /\ b = d.
Proof.
  revert c. induction a as [|x a IH]; intros [|y c] Hl E; simpl in *;
    try discriminate.
  - auto.
  - injection E as -> E. destruct (IH c) as [-> ->]; auto.
Qed.

Lemma append_inj_length_r (a c b d : string) :
  String.length b = String.length d -> a ++ b = c ++ d -> a = c /\ b = d.
Proof.
  intros Hl E. apply append_inj_length; [|exact E].
  apply (f_equal String.length) in E. rewrite !str_length_app in E. lia.
Qed.

Lemma error_is_not_success msg v : error_result msg <> success_result v.
Proof.
  unfold error_result, success_result. intros E.
  apply (f_equal (fun x => match x with VDict d => d !! "error" | _ => None end)) in E.
  rewrite lookup_singleton_eq, lookup_singleton_ne in E; done.
Qed.

Lemma success_result_inj v v' : success_result v = success_result v' -> v = v'.
Proof.
  unfold success_result. intros E.
  apply (f_equal (fun x => match x with
                           | VDict d => d !! "output_audio_path"
                           | _ => None
                           end)) in E.
  rewrite !lookup_singleton_eq in E. congruence.
Qed.

(** ** The checkpoint provisioner *)

Lemma check_directories_loop_present base_dir dirs w :
  all_present w base_dir dirs = true ->
  check_directories_loop base_dir dirs w = (w, Ret true).
Proof.
  unfold all_present. induction dirs as [|dir dirs IH]; simpl; intros H.
  - reflexivity.
  - apply andb_true_iff in H as [Hd Hr].
    unfold bind, os_path_exists, gets.
    destruct (fs w !! os_path_join base_dir dir); [|discriminate].
    simpl. auto.
Qed.

(** C8.  When every required directory exists under the target
    directory, [sync_checkpoints] returns [(None, None)] and leaves the
    world as it is: nothing is downloaded, nothing is extracted, and the
    log gets no entry.  Hence a second call with the same arguments is
    again this no-op. *)
Theorem sync_checkpoints_cache_hit
    (url target_dir zip_filename : string) (required_dirs : list string)
    (w : World) :
  all_present w target_dir required_dirs = true ->
  sync_checkpoints url target_dir zip_filename required_dirs w
    = (w, Ret (tt, None)) /\
  (sync_checkpoints url target_dir zip_filename required_dirs;;
   sync_checkpoints url target_dir zip_filename required_dirs) w
    = (w, Ret (tt, None)).
Proof.
  intros H.
  assert (E : sync_checkpoints url target_dir zip_filename required_dirs w
              = (w, Ret (tt, None))).
  { unfold sync_checkpoints, check_directories, try_except.
    unfold bind at 1. unfold bind at 1.
    rewrite (check_directories_loop_present _ _ _ H). reflexivity. }
  split; [exact E|]. unfold bind at 1. rewrite E. exact E.
Qed.

(** ** Output file names *)

Lemma random_choices_run population k w1 w2 :
  rng w1 = rng w2 -> rng_draws w1 = rng_draws w2 ->
  exists w1' r,
    random_choices population k w1 = (w1', Ret r) /\
    snd (random_choices population k w2) = Ret r /\
    String.length r = k /\
    env w1' = env w1 /\ fs w1' = fs w1 /\ libs w1' = libs w1 /\
    trace w1' = trace w1.
Proof.
  revert w1 w2. induction k as [|k IH]; intros w1 w2 Hr Hd; simpl.
  - eexists _, _. repeat split; reflexivity.
  - unfold bind at 1 3. unfold random_choice, bind, gets, modify, ret at 1 2.
    simpl.
    destruct (IH (set_rng_draws (S (rng_draws w1)) w1)
                 (set_rng_draws (S (rng_draws w2)) w2))
      as (w1' & r & E1 & E2 & Hl & He & Hf & Hs & Ht); simpl; [congruence .. |].
    rewrite E1.
    destruct (random_choices population k (set_rng_draws _ w2)) as [w2' o2].
    simpl in E2. subst o2. unfold ret. simpl.
    eexists _, _. split; [reflexivity|]. rewrite Hr, Hd.
    repeat split; simpl; try assumption. congruence.
Qed.

Lemma generate_unique_filename_run base_title extension w :
  exists w' r,
    generate_unique_filename base_title extension w =
      (w', Ret (Some (base_title ++ "_" ++ timestamp_at w ++ "_" ++ r ++ "_"
                        ++ str_take 6 (MD5.hexdigest (str_encode base_title))
                        ++ extension), None)) /\
    suffix_at w = Ret r /\ String.length r = 6 /\
    env w' = env w /\ fs w' = fs w /\ libs w' = libs w /\ trace w' = trace w.
Proof.
  unfold generate_unique_filename, try_except, suffix_at.
  unfold bind at 1. unfold datetime_now, bind, gets, modify, ret at 1.
  cbn beta iota.
  destruct (random_choices_run ascii_lowercase_digits 6
              (set_clock_reads (S (clock_reads w)) w) w)
    as (w' & r & E1 & E2 & Hl & He & Hf & Hs & Ht); [reflexivity .. |].
  unfold bind. rewrite E1. unfold ret.
  exists w', r. split; [reflexivity|]. repeat split; assumption.
Qed.

(** C9, as the code has it.  Two calls of [generate_unique_filename]
    with the same base title and extension, in any two worlds, return
    the same file name exactly when their timestamps (to the second) and
    their six-character random suffixes both coincide.  So calls in
    different seconds, or with different suffixes, never collide; the
    hash of the base title is the same in every name. *)
Theorem filenames_collide_iff (base_title extension : string) (wa wb : World) :
  exists fa fb ra rb,
    snd (generate_unique_filename base_title extension wa) = Ret (Some fa, None) /\
    snd (generate_unique_filename base_title extension wb) = Ret (Some fb, None) /\
    suffix_at wa = Ret ra /\ suffix_at wb = Ret rb /\
    (fa = fb <-> timestamp_at wa = timestamp_at wb /\ ra = rb).
Proof.
  destruct (generate_unique_filename_run base_title extension wa)
    as (wa' & ra & Ea & Sa & La & _).
  destruct (generate_unique_filename_run base_title extension wb)
    as (wb' & rb & Eb & Sb & Lb & _).
  eexists _, _, ra, rb. rewrite Ea, Eb. simpl.
  repeat (split; [reflexivity || assumption|]).
  split.
  - intros E.
    apply append_inj_length in E as [_ E]; [|reflexivity].
    apply append_inj_length in E as [_ E]; [|reflexivity].
    apply append_inj_length_r in E as [Et E].
    + split; [exact Et|].
      apply append_inj_length in E as [_ E]; [|reflexivity].
      apply append_inj_length in E as [Er _]; [exact Er | congruence].
    + simpl. rewrite !str_length_app. simpl. congruence.
  - intros [-> ->]. reflexivity.
Qed.

(** ** Input validation *)

(** C3.  When the job input has no [text] and [DEFAULT_TEXT] is unset,
    or has no [voice_url] and [DEFAULT_VOICE_URL] is unset, the handler
    returns an [{error: ...}] dictionary and the log is unchanged: no
    request was made and [generate_wav] was not entered. *)
Theorem handler_requires_text_and_voice_url
    (j input : gmap string pyval) (w : World) :
  j !! "input" = Some (VDict input) ->
  (input !! "text" = None /\ env w !! "DEFAULT_TEXT" = None) \/
  (input !! "voice_url" = None /\ env w !! "DEFAULT_VOICE_URL" = None) ->
  exists w' msg,
    handler (VDict j) w = (w', Ret (error_result msg)) /\
    trace w' = trace w /\
    synthesis_calls (trace w') = synthesis_calls (trace w).
Proof.
  intros Hin Hmiss.
  enough (wp (handler (VDict j))
            (fun w' o => exists msg,
                 o = Ret (error_result msg) /\ trace w' = trace w) w) as Hwp.
  { apply wp_run in Hwp as (w' & o & E & msg & -> & Ht).
    exists w', msg. rewrite Ht. auto. }
  unfold handler.
  destruct Hmiss as [[Ht He] | [Hv He]].
  all: wp_run with (rw ?Hin ?Ht ?Hv ?He).
  all: eauto.
Qed.

(** C10.  An empty string given for [text] or [voice_url] in the job
    input is used as it is, whatever [DEFAULT_TEXT] and
    [DEFAULT_VOICE_URL] hold: the handler returns the error of the
    missing field.  (The scratch directory can be ensured.) *)
Theorem empty_field_ignores_default
    (j input : gmap string pyval) (w : World) :
  j !! "input" = Some (VDict input) ->
  scratch_ok w = true ->
  (input !! "text" = Some (VStr "") ->
   exists w', handler (VDict j) w = (w', Ret (error_result "Text is required"))
              /\ trace w' = trace w) /\
  (input !! "voice_url" = Some (VStr "") ->
   exists w',
     handler (VDict j) w =
       (w', Ret (error_result
                   (if truthy (field_or_env input "text" w "DEFAULT_TEXT")
                    then "Voice URL is required" else "Text is required")))
     /\ trace w' = trace w).
Proof.
  intros Hin Hok. unfold scratch_ok in Hok. split; intros Hempty.
  - enough (wp (handler (VDict j))
              (fun w' o => o = Ret (error_result "Text is required")
                           /\ trace w' = trace w) w) as Hwp.
    { apply wp_run in Hwp as (w' & o & E & -> & Ht). eauto. }
    unfold handler.
    wp_run with (rw ?Hin ?Hempty); done.
  - enough (wp (handler (VDict j))
              (fun w' o =>
                 o = Ret (error_result
                            (if truthy (field_or_env input "text" w "DEFAULT_TEXT")
                             then "Voice URL is required" else "Text is required"))
                 /\ trace w' = trace w) w) as Hwp.
    { apply wp_run in Hwp as (w' & o & E & -> & Ht). eauto. }
    unfold handler, field_or_env.
    wp_run with (rw ?Hin ?Hempty); try done.
    all: match goal with
         | H : negb _ = _ |- _ =>
             first [ rewrite negb_true_iff in H | rewrite negb_false_iff in H ];
             rewrite H; done
         end.
Qed.

(** ** Reference resolution *)

Lemma wp_write_chunks path chunks Q w content :
  fs w !! path = Some (File content) ->
  Q (set_fs (<[path := File (content ++ concat chunks)]> (fs w)) w) (Ret tt) ->
  wp (write_chunks path chunks) Q w.
Proof.
  revert w content. induction chunks as [|chunk rest IH]; intros w content Hp HQ.
  - simpl in *. apply wp_ret. rewrite app_nil_r, insert_id, set_fs_same in HQ; auto.
  - simpl. wp_step. unfold file_write. wp_step. rewrite Hp.
    eapply IH.
    + simpl. apply lookup_insert_eq.
    + simpl. rewrite insert_insert_eq, <- app_assoc. exact HQ.
Qed.

Lemma synthesis_calls_http t url :
  synthesis_calls (t ++ [EvHttpGet url]) = synthesis_calls t.
Proof.
  unfold synthesis_calls. rewrite List.filter_app, length_app. simpl. lia.
Qed.


(** C6.  With a text and a scratch directory in order, a reference that
    resolves to a file of fewer than 1000 bytes, be it an existing local
    file or a completed download, gets the error
    [Voice file too small: <size> bytes], whatever the bytes are, and
    [generate_wav] is not entered. *)
Theorem small_reference_rejected
    (j input : gmap string pyval) (w : World) (url : string)
    (content : list byte) :
  j !! "input" = Some (VDict input) ->
  scratch_ok w = true ->
  truthy (field_or_env input "text" w "DEFAULT_TEXT") = true ->
  field_or_env input "voice_url" w "DEFAULT_VOICE_URL" = VStr url ->
  url <> "" ->
  length content < 1000 ->
  (is_http url = false /\ fs w !! url = Some (File content)) \/
  (is_http url = true /\
   fs w !! "tmp/audio.wav" <> Some Dir /\
   exists status chunks,
     net w url = HttpResponse status chunks None /\
     ((400 <=? status) && (status <? 600))%Z = false /\
     content = concat chunks) ->
  exists w',
    handler (VDict j) w =
      (w', Ret (error_result ("Voice file too small: " ++ dec (length content)
                                ++ " bytes")))
    /\ synthesis_calls (trace w') = synthesis_calls (trace w).
Proof.
  intros Hin Hok Htext Hvoice Hne Hsmall Hres.
  unfold scratch_ok in Hok. unfold field_or_env in Htext, Hvoice.
  assert (Hne' : str_nonempty url = true).
  { destruct url; [contradiction | reflexivity]. }
  apply Nat.ltb_lt in Hsmall.
  enough (wp (handler (VDict j))
            (fun w' o =>
               o = Ret (error_result ("Voice file too small: "
                                        ++ dec (length content) ++ " bytes"))
               /\ synthesis_calls (trace w') = synthesis_calls (trace w)) w)
    as Hwp.
  { apply wp_run in Hwp as (w' & o & E & -> & Ht). eauto. }
  destruct Hres as [[Hlocal Hfile] | (Hhttp & Hdir & status & chunks & Hnet & Hst & ->)].
  - unfold is_http in Hlocal.
    assert (Hins : forall x, <["tmp" := x]> (fs w) !! url = fs w !! url).
    { intros x. apply lookup_insert_ne. intros <-. rewrite Hfile in Hok. discriminate. }
    unfold handler.
    wp_run with (rw ?Hins ?Hin ?Htext ?Hvoice ?Hlocal ?Hfile ?Hsmall ?Hne'); done.
  - unfold is_http in Hhttp.
    assert (Hins : forall x, <["tmp" := x]> (fs w) !! "tmp/audio.wav"
                             = fs w !! "tmp/audio.wav").
    { intros x. apply lookup_insert_ne. discriminate. }
    unfold handler, download_file.
    wp_run with (rw ?Hins ?Hin ?Htext ?Hvoice ?Hhttp ?Hnet ?Hst ?Hne');
      try done; try congruence.
    all: (eapply wp_write_chunks; [apply lookup_insert_eq|]).
    all: wp_run with (rw ?lookup_insert_eq ?app_nil_l ?Hsmall).
    all: split; [reflexivity | apply synthesis_calls_http].
Qed.

(** ** The synthesis pipeline *)

Lemma wp_os_makedirs path Q w :
  (forall f, Q (set_fs f w) (Ret tt)) ->
  (forall e, Q w (Raise e)) ->
  wp (os_makedirs path) Q w.
Proof.
  intros Hret Hraise. unfold os_makedirs.
  wp_run with idtac; auto.
  rewrite <- (set_fs_same w). apply Hret.
Qed.

Lemma wp_spk_lookup speaker_ids key Q w :
  (forall v, Q w (Ret v)) -> (forall e, Q w (Raise e)) ->
  wp (spk_lookup speaker_ids key) Q w.
Proof.
  intros Hret Hraise. induction speaker_ids as [|[k v] rest IH]; simpl.
  - apply wp_raise, Hraise.
  - destruct (String.eqb k key); [apply wp_ret, Hret | exact IH].
Qed.

Lemma wp_first_missing required_files Q w :
  (forall r, Q w (Ret r)) -> wp (first_missing required_files) Q w.
Proof.
  intros Hret. induction required_files as [|file_path rest IH]; simpl.
  - apply wp_ret, Hret.
  - wp_run with idtac; [apply Hret | exact IH].
Qed.

Lemma wp_generate_unique_filename base_title extension Q w :
  (forall w' filename,
     env w' = env w -> trace w' = trace w ->
     Q w' (Ret (Some filename, None))) ->
  wp (generate_unique_filename base_title extension) Q w.
Proof.
  intros H. apply wp_run.
  destruct (generate_unique_filename_run base_title extension w)
    as (w' & r & E & _ & _ & He & _ & _ & Ht).
  eexists _, _. split; [exact E|]. apply H; assumption.
Qed.

Lemma wp_speaker_loop model tone_color_converter target_se text speed device
    src_path speaker_ids keys output_audio_path Q w :
  (forall w' e, env w' = env w -> Q w' (Raise e)) ->
  (forall w' error,
     env w' = env w -> truthy_error error = true ->
     Q w' (Ret (inl (None, error)))) ->
  (forall w' paths,
     env w' = env w -> length paths = length keys ->
     trace w' = (trace w ++ map (EvToneConvert src_path) paths)%list ->
     Q w' (Ret (inr (match last paths with
                     | Some p => Some (Some p)
                     | None => output_audio_path
                     end)))) ->
  wp (speaker_loop model tone_color_converter target_se text speed device
        src_path speaker_ids keys output_audio_path) Q w.
Proof.
  revert output_audio_path Q w.
  induction keys as [|speaker_key rest IH];
    intros output_audio_path Q w Hraise Hearly Hdone; simpl.
  - apply wp_ret. apply (Hdone w []); [reflexivity .. |].
    simpl. rewrite app_nil_r. reflexivity.
  - wp_step. apply wp_spk_lookup; [intros speaker_id | intros e]; wp_calc;
      [| apply Hraise; reflexivity].
    wp_step. wp_step; [| apply Hraise; reflexivity].
    wp_step. wp_step; [| apply Hraise; reflexivity].
    wp_step. apply wp_generate_unique_filename.
    intros w1 filename He1 Ht1. wp_calc in *.
    wp_run with idtac; [| apply Hraise; wp_calc; assumption].
    apply IH.
    + intros w' e He. apply Hraise. rewrite He. wp_calc. assumption.
    + intros w' error He Htr. apply Hearly; [|assumption].
      rewrite He. wp_calc. assumption.
    + intros w' paths He Hl Ht.
      pose proof (Hdone w' (filename :: paths)) as H.
      rewrite last_cons in H.
      destruct (last paths); apply H.
      all: try (rewrite He; wp_calc; assumption).
      all: try (simpl; congruence).
      all: rewrite Ht; wp_calc; rewrite Ht1; simpl; rewrite <- app_assoc; reflexivity.
Qed.

Lemma wp_upload_to_s3 local_file bucket_name object_name Q w :
  (forall w' e, env w' = env w -> Q w' (Ret (None, Some (ErrExn e)))) ->
  (forall w',
     env w' = env w ->
     trace w' = (trace w ++ [EvS3Upload local_file bucket_name object_name])%list ->
     Q w' (Ret (Some (format_opt (env w !! "BUCKET_ENDPOINT_URL") ++ "/"
                        ++ bucket_name ++ "/" ++ object_name), None))) ->
  wp (upload_to_s3 local_file bucket_name object_name) Q w.
Proof.
  intros Hfail Hok. unfold upload_to_s3.
  wp_run with idtac.
  - apply Hok; reflexivity.
  - apply Hfail; reflexivity.
  - apply Hfail; reflexivity.
Qed.

(** The function calls of [generate_wav] and of the handler, by their
    specifications. *)
Ltac wp_fn :=
  lazymatch goal with
  | |- wp (os_makedirs _) _ _ => apply wp_os_makedirs; [intros ? | intros ?]
  | |- wp (spk_lookup _ _) _ _ => apply wp_spk_lookup; [intros ? | intros ?]
  | |- wp (first_missing _) _ _ => apply wp_first_missing; intros ?
  | |- wp (generate_unique_filename _ _) _ _ =>
      apply wp_generate_unique_filename; intros ? ? ? ?
  | |- wp (upload_to_s3 _ _ _) _ _ =>
      apply wp_upload_to_s3; [intros ? ? ? | intros ? ? ?]
  | |- wp (speaker_loop _ _ _ _ _ _ _ _ _ _) _ _ =>
      apply wp_speaker_loop; [intros ? ? ? | intros ? ? ? ? | intros ? ? ? ? ?]
  end.

Lemma last_of_loop (paths : list string) (p : option string) :
  match last paths with
  | Some q => Some (Some q)
  | None => None
  end = Some p ->
  exists q, p = Some q /\ last paths = Some q.
Proof. destruct (last paths); intros [= <-]; eauto. Qed.

Lemma generate_wav_spec language text reference_speaker speed w :
  wp (generate_wav language text reference_speaker speed)
     (fun w' o => exists r error,
          o = Ret (r, error) /\
          generate_wav_post language text reference_speaker speed w w' r error)
     w.
Proof.
  unfold generate_wav.
  repeat (first [wp_fn | wp_step]; wp_calc in *).
  all: unfold generate_wav_post.
  all: try (eexists _, _; split; [reflexivity|]; split; [wp_calc; congruence|];
            left; split; [first [assumption | reflexivity] | reflexivity]).
  all: eexists _, _; split; [reflexivity|]; split; [congruence|].
  all: right; split; [reflexivity|]; eexists; split; [reflexivity|].
  all: match goal with
       | H : match last ?paths with _ => _ end = Some _ |- _ =>
           apply last_of_loop in H as (q & [= <-] & Hlast)
       end.
  all: match goal with
       | Hl : length ?paths = length ?keys |- _ =>
           exists keys, paths
       end.
  all: match goal with
       | Hc : _ && _ && _ = _, He : env ?w' = env _ |- _ =>
           rewrite He in Hc
       end.
  - eexists _, [_]. split; [assumption|]. split; [eassumption|]. split.
    + repeat match goal with H : trace _ = _ |- _ => rewrite H; clear H end.
      unfold synthesis_log. simpl. rewrite <- !app_assoc. reflexivity.
    + unfold delivered, storage_configured, object_url.
      match goal with Hc : _ && _ && _ = true |- _ => rewrite Hc end.
      match goal with He : env _ = env _ |- _ => rewrite He end.
      split; reflexivity.
  - eexists _, []. split; [assumption|]. split; [eassumption|]. split.
    + repeat match goal with H : trace _ = _ |- _ => rewrite H; clear H end.
      unfold synthesis_log. simpl. rewrite <- !app_assoc, app_nil_r. reflexivity.
    + unfold delivered, storage_configured.
      match goal with Hc : _ && _ && _ = false |- _ => rewrite Hc end.
      split; [reflexivity|]. eexists. split; [|reflexivity]. congruence.
Qed.

(** ** The handler *)

Lemma wp_write_chunks_any path chunks Q w :
  (forall f, Q (set_fs f w) (Ret tt)) -> wp (write_chunks path chunks) Q w.
Proof.
  revert w. induction chunks as [|chunk rest IH]; intros w H; simpl.
  - apply wp_ret. rewrite <- (set_fs_same w). apply H.
  - wp_step. unfold file_write. wp_step.
    destruct (fs w !! path) as [[content|]|]; apply IH; intros f; apply H.
Qed.

Lemma wp_download_file url local_filename Q w :
  (forall w' r error,
     env w' = env w ->
     synthesis_calls (trace w') = synthesis_calls (trace w) ->
     (truthy_error error = false -> r = Some local_filename) ->
     Q w' (Ret (r, error))) ->
  wp (download_file url local_filename) Q w.
Proof.
  intros H. unfold download_file.
  repeat (first [ apply wp_write_chunks_any; intros ? | wp_step ]; wp_calc in * ).
  all: apply H; wp_calc; try reflexivity; try apply synthesis_calls_http.
  all: discriminate.
Qed.

Ltac wp_handler_fn :=
  lazymatch goal with
  | |- wp (os_makedirs _) _ _ => apply wp_os_makedirs; [intros ? | intros ?]
  | |- wp (download_file _ _) _ _ => apply wp_download_file; intros ? ? ? ? ? ?
  | |- wp (generate_wav _ _ _ _) _ _ =>
      eapply wp_conseq;
      [ apply generate_wav_spec
      | let Henv := fresh "Henv" in
        let Hpost := fresh "Hpost" in
        intros ? ? (? & ? & -> & Henv & Hpost) ]
  end.

Lemma handler_spec job w :
  wp (handler job) (fun w' o => exists v, o = Ret v /\ handler_post w w' v) w.
Proof.
  unfold handler.
  repeat (first [wp_handler_fn | wp_step]; wp_calc in * ).
  all: try (eexists; split; [reflexivity|]; left; eexists; reflexivity).
  all: match goal with
       | Hpost : _ \/ _ |- _ =>
           destruct Hpost as [[Ht _] | [_ (out & -> & Hsyn)]];
           [discriminate Ht|]
       end.
  all: destruct Hsyn as (keys & paths & final & uploads & _ & _ & _ & Hd).
  all: eexists; split; [reflexivity|]; right.
  all: eexists _, _, _, _; split; [reflexivity|]; split; [|exact Hd].
  all: wp_calc; congruence.
Qed.


Lemma prefix_app (p s : string) : str_startswith p (p ++ s) = true.
Proof.
  unfold str_startswith. induction p as [|c p IH]; simpl.
  - destruct s; reflexivity.
  - destruct (ascii_dec c c); [exact IH | contradiction].
Qed.

(** C2, as the code has it.  When the handler returns an
    [output_audio_path]: if the three storage variables are in the
    environment and none is empty, it is the object URL
    [<endpoint>/<bucket>/<object name>], the object name being the base
    name of the output file; if one of them is absent or empty, it is a
    string that begins with [data:audio/wav;base64,]. *)
Theorem output_is_url_or_data_uri (job : pyval) (w w' : World) (s : string) :
  handler job w = (w', Ret (success_result (VStr s))) ->
  if storage_configured (env w)
  then exists path, s = object_url (env w) (os_path_basename path)
  else str_startswith "data:audio/wav;base64," s = true.
Proof.
  intros E.
  destruct (proj1 (wp_run _ _ _) (handler_spec job w))
    as (w1 & o & E1 & v & -> & Hpost).
  rewrite E in E1. injection E1 as <- <-.
  destruct Hpost as [[msg Hv] | (s' & path & uploads & w0 & Hv & He & Hd)].
  - symmetry in Hv. apply error_is_not_success in Hv. contradiction.
  - apply success_result_inj in Hv. injection Hv as <-.
    unfold delivered in Hd. rewrite He in Hd.
    destruct (storage_configured (env w)).
    + destruct Hd as [-> _]. eauto.
    + destruct Hd as (_ & data & _ & ->). apply prefix_app.
Qed.


(* ===================================================================== *)
(** * Further properties of the functions *)
(* ===================================================================== *)

(** ** The checkpoint provisioner, beyond the cache hit *)

Lemma check_directories_loop_decides base_dir dirs w :
  check_directories_loop base_dir dirs w
    = (w, Ret (all_present w base_dir dirs)).
Proof.
  unfold all_present. induction dirs as [|dir dirs IH]; simpl.
  - reflexivity.
  - unfold bind, os_path_exists, gets.
    destruct (fs w !! os_path_join base_dir dir); simpl; [exact IH | reflexivity].
Qed.

Lemma check_directories_run base_dir dirs w :
  check_directories base_dir dirs w
    = (w, Ret (Some (all_present w base_dir dirs), None)).
Proof.
  unfold check_directories, try_except, bind.
  rewrite check_directories_loop_decides. reflexivity.
Qed.

(** X1.  [check_directories] answers [True] exactly when every listed
    directory exists under the base directory, and [False] otherwise
    (it stops at the first one that is missing); it never answers with
    an error and it changes nothing. *)
Theorem check_directories_decides (base_dir : string) (dirs : list string)
    (w : World) :
  check_directories base_dir dirs w
    = (w, Ret (Some (all_present w base_dir dirs), None)).
Proof. apply check_directories_run. Qed.

Lemma download_and_unzip_error url target_dir zip_filename w :
  exists w' error,
    download_and_unzip url target_dir zip_filename w = (w', Ret (tt, error)) /\
    (error = None \/ exists e, error = Some (ErrExn e)).
Proof.
  unfold download_and_unzip, try_except, bind.
  destruct (urlretrieve url zip_filename w) as [w1 [[]|e]]; [|eauto 6].
  destruct (zip_extractall zip_filename target_dir w1) as [w2 [[]|e]]; [|eauto 6].
  destruct (os_remove zip_filename w2) as [w3 [[]|e]]; eauto 6.
Qed.

(** X2.  When a required directory is missing, [sync_checkpoints] is
    [download_and_unzip]: same file system, same log, same answer.  It
    does not look at the directories again after the extraction, and it
    does not try a second time. *)
Theorem sync_checkpoints_miss (url target_dir zip_filename : string)
    (required_dirs : list string) (w : World) :
  all_present w target_dir required_dirs = false ->
  sync_checkpoints url target_dir zip_filename required_dirs w
    = download_and_unzip url target_dir zip_filename w.
Proof.
  intros Hmiss. unfold sync_checkpoints. unfold bind at 1.
  rewrite check_directories_run, Hmiss.
  cbn [truthy_error from_option id]. cbn beta iota. unfold bind.
  destruct (download_and_unzip_error url target_dir zip_filename w)
    as (w' & error & E & Herror).
  rewrite E. destruct Herror as [-> | [e ->]]; reflexivity.
Qed.

(** X3.  When the server of the archive cannot be reached or answers
    with a status of 400 or more, [download_and_unzip] returns the
    error; nothing is written, nothing is extracted: the world is as
    before but for the log entry of the request. *)
Theorem download_and_unzip_refused (url target_dir zip_filename : string)
    (w : World) :
  refuses_retrieval (net w url) = true ->
  exists e,
    download_and_unzip url target_dir zip_filename w
      = (set_trace (trace w ++ [EvUrlRetrieve url zip_filename]) w,
         Ret (tt, Some (ErrExn e))).
Proof.
  intros Href.
  enough (wp (download_and_unzip url target_dir zip_filename)
            (fun w' o =>
               exists e,
                 w' = set_trace (trace w ++ [EvUrlRetrieve url zip_filename]) w /\
                 o = Ret (tt, Some (ErrExn e))) w) as Hwp.
  { apply wp_run in Hwp as (w' & o & E & e & -> & ->). eauto. }
  unfold download_and_unzip, urlretrieve.
  destruct (net w url) as [e | status chunks broken] eqn:Hnet; simpl in Href.
  all: wp_run with (rw ?Hnet ?Href); eauto.
Qed.

Lemma wp_write_members target_dir members Q w :
  Q (set_fs (extracted target_dir members (fs w)) w) (Ret tt) ->
  wp (write_members target_dir members) Q w.
Proof.
  revert w. induction members as [|[name n] rest IH]; intros w H; simpl.
  - apply wp_ret. simpl in H. rewrite set_fs_same in H. exact H.
  - wp_step. wp_step. apply IH. exact H.
Qed.



(** A step of a run that writes the body of a response or the members
    of an archive. *)
Ltac archive_step :=
  first [ eapply wp_write_chunks; [wp_calc; apply lookup_insert_eq|]
        | apply wp_write_members
        | wp_step ].



(** ** The shape of an output file name *)

Lemma choice_is_lowercase_or_digit (n : nat) :
  is_lowercase_or_digit
    (default "a"%char (String.get n ascii_lowercase_digits)) = true.
Proof.
  do 36 (destruct n as [|n]; [reflexivity|]). reflexivity.
Qed.

Lemma hex_digit_is_hex (n : Z) : is_hex_digit (hex_digit n) = true.
Proof.
  unfold hex_digit. generalize (Z.to_nat n). intros k.
  do 16 (destruct k as [|k]; [reflexivity|]). reflexivity.
Qed.

Lemma random_choices_alphabet k w :
  exists w' r,
    random_choices ascii_lowercase_digits k w = (w', Ret r) /\
    String.length r = k /\
    str_all is_lowercase_or_digit r = true /\
    rng_draws w' = k + rng_draws w /\
    clock_reads w' = clock_reads w /\
    env w' = env w /\ fs w' = fs w /\ libs w' = libs w /\ trace w' = trace w.
Proof.
  revert w. induction k as [|k IH]; intros w; simpl.
  - eexists _, _. repeat split; reflexivity.
  - unfold bind at 1. unfold random_choice, bind, gets, modify, ret at 1 2.
    cbn beta iota.
    destruct (IH (set_rng_draws (S (rng_draws w)) w))
      as (w' & r & E & Hl & Ha & Hd & Hc & He & Hf & Hs & Ht).
    unfold bind. rewrite E. unfold ret.
    eexists _, _. split; [reflexivity|]. cbn [str_all String.length].
    rewrite choice_is_lowercase_or_digit, Ha, Hl, Hd, Hc, He, Hf, Hs, Ht.
    repeat split. simpl. lia.
Qed.

Lemma hash_str_shape (msg : list Z) :
  String.length (str_take 6 (MD5.hexdigest msg)) = 6 /\
  str_all is_hex_digit (str_take 6 (MD5.hexdigest msg)) = true.
Proof.
  unfold MD5.hexdigest, MD5.digest.
  generalize (MD5.blocks (length (MD5.le_words (MD5.pad msg)))
                (MD5.le_words (MD5.pad msg)) MD5.init).
  intros s.
  generalize (MD5.sA s), (MD5.sB s), (MD5.sC s), (MD5.sD s). intros a b c d.
  cbv beta iota zeta delta
    [MD5.le_bytes app map String.concat String.append hex_byte str_take
     String.substring String.length str_all].
  rewrite !hex_digit_is_hex. split; reflexivity.
Qed.

Lemma generate_unique_filename_parts (base_title extension : string)
    (w : World) :
  exists w' random_str hash_str,
    generate_unique_filename base_title extension w
      = (w', Ret (Some (base_title ++ "_" ++ timestamp_at w ++ "_"
                          ++ random_str ++ "_" ++ hash_str ++ extension),
                  None)) /\
    String.length random_str = 6 /\
    str_all is_lowercase_or_digit random_str = true /\
    hash_str = str_take 6 (MD5.hexdigest (str_encode base_title)) /\
    String.length hash_str = 6 /\
    str_all is_hex_digit hash_str = true /\
    clock_reads w' = S (clock_reads w) /\
    rng_draws w' = 6 + rng_draws w /\
    env w' = env w /\ fs w' = fs w /\ trace w' = trace w.
Proof.
  unfold generate_unique_filename, try_except, timestamp_at.
  unfold bind at 1. unfold datetime_now, bind, gets, modify, ret at 1.
  cbn beta iota.
  destruct (random_choices_alphabet 6 (set_clock_reads (S (clock_reads w)) w))
    as (w' & r & E & Hl & Ha & Hd & Hc & He & Hf & Hs & Ht).
  unfold bind. rewrite E. unfold ret.
  destruct (hash_str_shape (str_encode base_title)) as [Hhl Hha].
  eexists w', r, _. split; [reflexivity|].
  repeat split; assumption.
Qed.

(** X6.  [generate_unique_filename] never answers with an error.  The
    name is the base title, the timestamp of the clock reading it
    takes, six characters drawn from [a-z0-9], the first six
    hexadecimal digits of the MD5 of the base title, and the
    extension, joined by underscores.  It takes one reading of the
    clock and six draws of the generator, and touches nothing else. *)
Theorem generate_unique_filename_shape (base_title extension : string)
    (w : World) :
  exists w' random_str hash_str,
    generate_unique_filename base_title extension w
      = (w', Ret (Some (base_title ++ "_" ++ timestamp_at w ++ "_"
                          ++ random_str ++ "_" ++ hash_str ++ extension),
                  None)) /\
    String.length random_str = 6 /\
    str_all is_lowercase_or_digit random_str = true /\
    hash_str = str_take 6 (MD5.hexdigest (str_encode base_title)) /\
    String.length hash_str = 6 /\
    str_all is_hex_digit hash_str = true /\
    clock_reads w' = S (clock_reads w) /\
    rng_draws w' = 6 + rng_draws w /\
    env w' = env w /\ fs w' = fs w /\ trace w' = trace w.
Proof. apply generate_unique_filename_parts. Qed.

Lemma str_all_app f (a b : string) :
  str_all f (a ++ b) = str_all f a && str_all f b.
Proof.
  induction a as [|c a IH]; [reflexivity|].
  change (String c a ++ b) with (String c (a ++ b)).
  cbn [str_all]. rewrite IH. apply andb_assoc.
Qed.

Lemma str_all_impl (f g : ascii -> bool) (s : string) :
  (forall c, f c = true -> g c = true) ->
  str_all f s = true -> str_all g s = true.
Proof.
  intros Hfg. induction s as [|c s IH]; simpl; [auto|].
  intros H. apply andb_true_iff in H as [Hc Hs].
  rewrite (Hfg c Hc), (IH Hs). reflexivity.
Qed.

Lemma no_slash_among f :
  f "/"%char = false -> forall c, f c = true -> is_not_slash c = true.
Proof.
  intros Hf c Hc. unfold is_not_slash.
  destruct (Ascii.eqb_spec c "/") as [->|]; [congruence | reflexivity].
Qed.

Lemma basename_no_slash (acc s : string) :
  str_all is_not_slash s = true -> basename_from acc s = acc ++ s.
Proof.
  revert acc. induction s as [|c s IH]; intros acc H.
  - simpl. clear H. induction acc as [|a acc IHa]; [reflexivity|].
    change (String a acc ++ "") with (String a (acc ++ "")).
    rewrite <- IHa. reflexivity.
  - cbn [str_all] in H. apply andb_true_iff in H as [Hc Hs].
    unfold is_not_slash in Hc. apply negb_true_iff in Hc.
    cbn [basename_from]. rewrite Hc, (IH _ Hs).
    clear. induction acc as [|a acc IHa]; [reflexivity|].
    change ((String a acc ++ String c "") ++ s)
      with (String a ((acc ++ String c "") ++ s)).
    rewrite IHa. reflexivity.
Qed.

Lemma dec_no_slash (n : nat) : str_all is_not_slash (dec n) = true.
Proof.
  unfold dec. generalize (Nat.to_uint n). intros u.
  induction u; simpl; auto.
Qed.

Lemma zeros_no_slash (k : nat) : str_all is_not_slash (zeros k) = true.
Proof. induction k; simpl; auto. Qed.

Lemma pad_dec_no_slash (width n : nat) :
  str_all is_not_slash (pad_dec width n) = true.
Proof.
  unfold pad_dec. rewrite str_all_app, zeros_no_slash, dec_no_slash.
  reflexivity.
Qed.

Lemma strftime_no_slash (t : datetime) : str_all is_not_slash (strftime t) = true.
Proof.
  unfold strftime. rewrite !str_all_app, !pad_dec_no_slash. reflexivity.
Qed.

(** X7.  The name [generate_wav] gets for an output (the default base
    title and extension) is [outputs_v2/] followed by a name that
    begins with [OpenVoice_] and has no slash, and [os.path.basename]
    of it is that name: the object name of an upload has no directory
    part. *)
Theorem output_object_name (w : World) :
  exists w' name,
    generate_unique_filename "outputs_v2/OpenVoice" ".wav" w
      = (w', Ret (Some ("outputs_v2/" ++ name), None)) /\
    os_path_basename ("outputs_v2/" ++ name) = name /\
    str_startswith "OpenVoice_" name = true /\
    str_all is_not_slash name = true.
Proof.
  destruct (generate_unique_filename_parts "outputs_v2/OpenVoice" ".wav" w)
    as (w' & r & h & E & _ & Hr & _ & _ & Hh & _).
  exists w', ("OpenVoice" ++ "_" ++ timestamp_at w ++ "_" ++ r ++ "_" ++ h
                ++ ".wav").
  assert (Hname : str_all is_not_slash
                    ("OpenVoice" ++ "_" ++ timestamp_at w ++ "_" ++ r ++ "_"
                       ++ h ++ ".wav") = true).
  { unfold timestamp_at.
    rewrite !str_all_app, strftime_no_slash.
    rewrite (str_all_impl _ _ r (no_slash_among _ eq_refl) Hr).
    rewrite (str_all_impl _ _ h (no_slash_among _ eq_refl) Hh).
    reflexivity. }
  split; [exact E|].
  split; [|split; [exact (prefix_app "OpenVoice_" _) | exact Hname]].
  change (os_path_basename
            ("outputs_v2/" ++ "OpenVoice" ++ "_" ++ timestamp_at w ++ "_" ++ r
               ++ "_" ++ h ++ ".wav"))
    with (basename_from ""
            ("OpenVoice" ++ "_" ++ timestamp_at w ++ "_" ++ r ++ "_" ++ h
               ++ ".wav")).
  apply (basename_no_slash "" _ Hname).
Qed.

(** ** Downloads of the voice reference *)


(** X9.  When the server of the voice reference cannot be reached or
    answers with a status from 400 to 599, or when [local_filename] is
    a directory, [download_file] returns an error and writes nothing:
    whatever was at [local_filename] is still there. *)
Theorem download_file_refused (url local_filename : string) (w : World) :
  refuses_request (net w url) = true \/ fs w !! local_filename = Some Dir ->
  exists e,
    download_file url local_filename w
      = (set_trace (trace w ++ [EvHttpGet url]) w, Ret (None, Some (ErrExn e))).
Proof.
  intros Href.
  enough (wp (download_file url local_filename)
            (fun w' o =>
               exists e,
                 w' = set_trace (trace w ++ [EvHttpGet url]) w /\
                 o = Ret (None, Some (ErrExn e))) w) as Hwp.
  { apply wp_run in Hwp as (w' & o & E & e & -> & ->). eauto. }
  unfold download_file, open_wb.
  destruct (net w url) as [e | status chunks broken] eqn:Hnet;
    simpl in Href.
  - wp_run with (rw ?Hnet); eauto.
  - destruct (((400 <=? status) && (status <? 600))%Z) eqn:Hst.
    + wp_run with (rw ?Hnet ?Hst); eauto.
    + destruct Href as [Href | Hdir]; [discriminate|].
      wp_run with (rw ?Hnet ?Hst ?Hdir); eauto.
Qed.

(** ** Uploads *)


(** ** The synthesis pipeline, beyond the last output *)

(** X11.  [generate_wav] returns a pair for every world and every
    behaviour of the libraries: no exception leaves it.  The pair has a
    result or an error, never both and never neither, and an error is
    one that the caller's [if error:] sees.  The environment is left as
    it was. *)
Theorem generate_wav_answers
    (language text : pyval) (reference_speaker : string) (speed : pyval)
    (w : World) :
  exists w' result error,
    generate_wav language text reference_speaker speed w
      = (w', Ret (result, error)) /\
    env w' = env w /\
    ((result = None /\ truthy_error error = true) \/
     (error = None /\ exists s, result = Some s)).
Proof.
  destruct (proj1 (wp_run _ _ _)
              (generate_wav_spec language text reference_speaker speed w))
    as (w' & o & E & result & error & -> & Henv & Hpost).
  exists w', result, error. split; [exact E|]. split; [exact Henv|].
  destruct Hpost as [[Ht ->] | (-> & s & -> & _)]; eauto.
Qed.

Lemma b64encode_length_upto (n : nat) (data : list byte) :
  length data <= n ->
  String.length (Base64.b64encode data) = 4 * ((length data + 2) / 3).
Proof.
  revert data. induction n as [n IH] using lt_wf_ind. intros data Hn.
  destruct data as [|a [|b [|c rest]]]; try reflexivity.
  change (Base64.b64encode (a :: b :: c :: rest))
    with (String (Base64.digit (N.shiftr (Byte.to_N a) 2))
            (String (Base64.digit
                       (N.lor (N.shiftl (N.land (Byte.to_N a) 3) 4)
                          (N.shiftr (Byte.to_N b) 4)))
               (String (Base64.digit
                          (N.lor (N.shiftl (N.land (Byte.to_N b) 15) 2)
                             (N.shiftr (Byte.to_N c) 6)))
                  (String (Base64.digit (N.land (Byte.to_N c) 63))
                     (Base64.b64encode rest))))).
  cbn [String.length length] in *.
  rewrite (IH (length rest)) by lia.
  replace (S (S (S (length rest))) + 2) with (length rest + 2 + 1 * 3) by lia.
  rewrite Nat.div_add by lia. lia.
Qed.

(** X12.  When storage is not configured, the string a successful run of
    [generate_wav] returns is the data URI of an output file that is on
    disk afterwards, and it has [22 + 4 * ceil(n / 3)] characters for a
    file of [n] bytes. *)
Theorem data_uri_length
    (language text : pyval) (reference_speaker : string) (speed : pyval)
    (w w' : World) (s : string) :
  generate_wav language text reference_speaker speed w
    = (w', Ret (Some s, None)) ->
  storage_configured (env w) = false ->
  exists path data,
    fs w' !! path = Some (File data) /\
    s = "data:audio/wav;base64," ++ Base64.b64encode data /\
    String.length s = 22 + 4 * ((length data + 2) / 3).
Proof.
  intros E Hstorage.
  destruct (proj1 (wp_run _ _ _)
              (generate_wav_spec language text reference_speaker speed w))
    as (w1 & o & E1 & r & error & -> & _ & Hpost).
  rewrite E in E1. injection E1 as <- <- <-.
  destruct Hpost as [[Ht _] | (_ & s' & [= <-] & Hs)]; [discriminate Ht|].
  destruct Hs as (keys & paths & final & uploads & _ & _ & _ & Hd).
  unfold delivered in Hd. rewrite Hstorage in Hd.
  destruct Hd as (_ & data & Hfile & ->).
  exists final, data. split; [exact Hfile|]. split; [reflexivity|].
  rewrite str_length_app, (b64encode_length_upto (length data)) by lia.
  reflexivity.
Qed.



(** ** The log of a synthesis *)







(** ** The handler on malformed jobs *)

(** X15.  A job dictionary without the key [input] gets
    [Unexpected error: 'input'] and nothing is touched.  A job whose
    [input] is not a dictionary gets the [AttributeError] of its
    [.get]; by then the scratch directory has been ensured, and the log
    is as it was. *)
Theorem handler_malformed_job (j : gmap string pyval) (w : World) :
  (j !! "input" = None ->
   handler (VDict j) w = (w, Ret (error_result "Unexpected error: 'input'"))) /\
  (forall v,
     j !! "input" = Some v -> is_dict v = false -> scratch_ok w = true ->
     exists w',
       handler (VDict j) w
         = (w', Ret (error_result ("Unexpected error: '" ++ type_name v
                                     ++ "' object has no attribute 'get'"))) /\
       trace w' = trace w).
Proof.
  split.
  - intros Hin.
    enough (wp (handler (VDict j))
              (fun w' o => w' = w /\
                           o = Ret (error_result "Unexpected error: 'input'")) w)
      as Hwp.
    { apply wp_run in Hwp as (w' & o & E & -> & ->). exact E. }
    unfold handler. wp_run with (rw ?Hin). auto.
  - intros v Hin Hv Hok. unfold scratch_ok in Hok.
    enough (wp (handler (VDict j))
              (fun w' o =>
                 o = Ret (error_result ("Unexpected error: '" ++ type_name v
                                          ++ "' object has no attribute 'get'"))
                 /\ trace w' = trace w) w) as Hwp.
    { apply wp_run in Hwp as (w' & o & E & -> & Ht). eauto. }
    unfold handler.
    destruct v; try discriminate Hv.
    all: wp_run with (rw ?Hin); done.
Qed.

(** X16.  When a regular file named [tmp] stands in the working
    directory, every job with an [input] gets
    [Unexpected error: [Errno 17] File exists: 'tmp'], whatever the
    input holds: the directory is ensured before anything is read.
    Nothing is touched. *)
Theorem handler_blocked_scratch (j : gmap string pyval) (v : pyval)
    (w : World) (content : list byte) :
  j !! "input" = Some v ->
  fs w !! "tmp" = Some (File content) ->
  handler (VDict j) w
    = (w, Ret (error_result "Unexpected error: [Errno 17] File exists: 'tmp'")).
Proof.
  intros Hin Htmp.
  enough (wp (handler (VDict j))
            (fun w' o =>
               w' = w /\
               o = Ret (error_result
                          "Unexpected error: [Errno 17] File exists: 'tmp'")) w)
    as Hwp.
  { apply wp_run in Hwp as (w' & o & E & -> & ->). exact E. }
  unfold handler. wp_run with (rw ?Hin ?Htmp). auto.
Qed.

(** X17.  A [voice_url] that is true but not a string (a number, [true],
    a non-empty list or dictionary) passes the test for presence and
    then has no [startswith]: the handler answers
    [Unexpected error: '<type>' object has no attribute 'startswith'];
    nothing is requested and [generate_wav] is not entered. *)
Theorem handler_voice_url_not_a_string
    (j input : gmap string pyval) (w : World) (v : pyval) :
  j !! "input" = Some (VDict input) ->
  scratch_ok w = true ->
  truthy (field_or_env input "text" w "DEFAULT_TEXT") = true ->
  field_or_env input "voice_url" w "DEFAULT_VOICE_URL" = v ->
  truthy v = true ->
  is_str v = false ->
  exists w',
    handler (VDict j) w
      = (w', Ret (error_result ("Unexpected error: '" ++ type_name v
                                  ++ "' object has no attribute 'startswith'"))) /\
    trace w' = trace w.
Proof.
  intros Hin Hok Htext Hvoice Htrue Hstr.
  unfold scratch_ok in Hok. unfold field_or_env in Htext, Hvoice.
  enough (wp (handler (VDict j))
            (fun w' o =>
               o = Ret (error_result ("Unexpected error: '" ++ type_name v
                                        ++ "' object has no attribute 'startswith'"))
               /\ trace w' = trace w) w) as Hwp.
  { apply wp_run in Hwp as (w' & o & E & -> & Ht). eauto. }
  unfold handler.
  wp_run with (rw ?Hin ?Htext ?Hvoice ?Htrue;
               try (simpl in Hstr; discriminate Hstr)); done.
Qed.

(** X18.  A [text] that is a number or [true] passes the test for
    presence; the voice reference is then resolved (and downloaded,
    when it is a URL) and checked for size, and only the line that
    prints the first 50 characters of the text fails: the handler
    answers [Unexpected error: '<type>' object is not subscriptable]
    and [generate_wav] is not entered. *)
Theorem handler_text_not_sliceable
    (j input : gmap string pyval) (w : World) (v : pyval) (url : string)
    (content : list byte) :
  j !! "input" = Some (VDict input) ->
  scratch_ok w = true ->
  field_or_env input "text" w "DEFAULT_TEXT" = v ->
  truthy v = true ->
  is_scalar v = true ->
  field_or_env input "voice_url" w "DEFAULT_VOICE_URL" = VStr url ->
  url <> "" ->
  1000 <= length content ->
  (is_http url = false /\ fs w !! url = Some (File content)) \/
  (is_http url = true /\
   fs w !! "tmp/audio.wav" <> Some Dir /\
   exists status chunks,
     net w url = HttpResponse status chunks None /\
     refuses_request (net w url) = false /\
     content = concat chunks) ->
  exists w',
    handler (VDict j) w
      = (w', Ret (error_result ("Unexpected error: '" ++ type_name v
                                  ++ "' object is not subscriptable"))) /\
    synthesis_calls (trace w') = synthesis_calls (trace w) /\
    request_count (trace w') = request_count (trace w)
                               + (if is_http url then 1 else 0).
Proof.
  intros Hin Hok Htext Htrue Hscalar Hvoice Hne Hsize Hres.
  unfold scratch_ok in Hok. unfold field_or_env in Htext, Hvoice.
  assert (Hne' : str_nonempty url = true).
  { destruct url; [contradiction | reflexivity]. }
  assert (Hbig : (length content <? 1000)%nat = false).
  { apply Nat.ltb_ge. exact Hsize. }
  enough (wp (handler (VDict j))
            (fun w' o =>
               o = Ret (error_result ("Unexpected error: '" ++ type_name v
                                        ++ "' object is not subscriptable"))
               /\ synthesis_calls (trace w') = synthesis_calls (trace w)
               /\ request_count (trace w') = request_count (trace w)
                                             + (if is_http url then 1 else 0)) w)
    as Hwp.
  { apply wp_run in Hwp as (w' & o & E & -> & Ht). eauto. }
  destruct Hres as [[Hlocal Hfile]
                   | (Hhttp & Hdir & status & chunks & Hnet & Hst & ->)].
  - rewrite Hlocal. unfold is_http in Hlocal.
    assert (Hins : forall x, <["tmp" := x]> (fs w) !! url = fs w !! url).
    { intros x. apply lookup_insert_ne. intros <-. rewrite Hfile in Hok.
      discriminate. }
    unfold handler.
    wp_run with (rw ?Hins ?Hin ?Htext ?Hvoice ?Hlocal ?Hfile ?Hbig ?Hne'
                    ?Htrue; try (simpl in Hscalar; discriminate Hscalar)).
    all: try discriminate.
    all: split; [reflexivity|]; split; [reflexivity | lia].
  - rewrite Hhttp. unfold is_http in Hhttp. rewrite Hnet in Hst. simpl in Hst.
    assert (Hins : forall x, <["tmp" := x]> (fs w) !! "tmp/audio.wav"
                             = fs w !! "tmp/audio.wav").
    { intros x. apply lookup_insert_ne. discriminate. }
    unfold handler, download_file.
    wp_run with (rw ?Hins ?Hin ?Htext ?Hvoice ?Hhttp ?Hnet ?Hst ?Hne' ?Htrue).
    all: try discriminate.
    all: try contradiction.
    all: (eapply wp_write_chunks; [apply lookup_insert_eq|]).
    all: wp_run with (rw ?lookup_insert_eq ?app_nil_l ?Hbig;
                      try (simpl in Hscalar; discriminate Hscalar)).
    all: split; [reflexivity|]; split; [apply synthesis_calls_http|].
    all: unfold request_count; rewrite List.filter_app, length_app; reflexivity.
Qed.

(** ** What the handler asks of the network and of the pipeline *)

Lemma wp_any {A} (m : M A) (Q : World -> outcome A -> Prop) w :
  (forall w' o, Q w' o) -> wp m Q w.
Proof. unfold wp. auto. Qed.

Lemma error_result_inj msg msg' : error_result msg = error_result msg' -> msg = msg'.
Proof.
  unfold error_result. intros E.
  apply (f_equal (fun x => match x with
                           | VDict d => d !! "error"
                           | _ => None
                           end)) in E.
  rewrite !lookup_singleton_eq in E. congruence.
Qed.

Lemma Ret_inj {A} (a b : A) : Ret a = Ret b -> a = b.
Proof. intros [= H]. exact H. Qed.

Lemma other_error msg msg' :
  msg <> msg' -> Ret (error_result msg) <> Ret (error_result msg').
Proof. intros Hne Heq. apply Ret_inj, error_result_inj in Heq. auto. Qed.

Lemma success_is_no_error msg v :
  Ret (success_result v) <> Ret (error_result msg).
Proof.
  intros Heq. apply Ret_inj in Heq. symmetry in Heq.
  exact (error_is_not_success _ _ Heq).
Qed.

Lemma wp_download_file_full url local_filename Q w :
  (forall w' e,
     env w' = env w -> trace w' = (trace w ++ [EvHttpGet url])%list ->
     Q w' (Ret (None, Some (ErrExn e)))) ->
  (forall w' content,
     env w' = env w -> trace w' = (trace w ++ [EvHttpGet url])%list ->
     fs w' !! local_filename = Some (File content) ->
     Q w' (Ret (Some local_filename, None))) ->
  wp (download_file url local_filename) Q w.
Proof.
  intros Hfail Hok. unfold download_file, open_wb.
  repeat (archive_step; wp_calc; rw ?insert_insert_eq).
  all: first [ apply Hfail; reflexivity
             | eapply Hok; wp_calc;
               [reflexivity | reflexivity | apply lookup_insert_eq] ].
Qed.

(** X19.  The handler never answers [Voice file does not exist]: when it
    comes to that test, the reference is the file a download has just
    written or the local path it has just seen to exist. *)
Theorem handler_never_reports_a_missing_voice_file (job : pyval) (w : World) :
  snd (handler job w) <> Ret (error_result "Voice file does not exist").
Proof.
  enough (wp (handler job)
            (fun w' o => o <> Ret (error_result "Voice file does not exist")) w)
    as Hwp.
  { exact Hwp. }
  unfold handler.
  repeat (first
            [ lazymatch goal with
              | |- wp (os_makedirs _) _ _ =>
                  apply wp_os_makedirs; [intros ? | intros ?]
              | |- wp (download_file _ _) _ _ =>
                  apply wp_download_file_full; [intros ? ? ? ? | intros ? ? ? ? ?]
              | |- wp (generate_wav _ _ _ _) _ _ =>
                  apply wp_any; intros ? [[? ?]|?]
              end
            | wp_step ]; wp_calc in * ).
  all: first
         [ apply success_is_no_error
         | apply other_error; cbv beta iota delta [String.append]; discriminate
         | exfalso;
           match goal with
           | H : fs ?x !! ?p = Some _,
             H2 : negb match fs ?x !! ?p with _ => _ end = true |- _ =>
               rewrite H in H2; discriminate H2
           end
         | exfalso; congruence ].
Qed.




End Properties.

(* ===================================================================== *)
(** * Properties of the start-up code *)
(* ===================================================================== *)

Section VolumeProperties.
Import Volume.

Arguments follow : simpl never.
Arguments stat : simpl never.

(** ** Links *)

Lemma follow_eq fuel (t : tree) path :
  follow fuel t path =
    match t !! path with
    | Some (Node n) => Some n
    | Some (Symlink target) =>
        match fuel with
        | O => None
        | S fuel' => follow fuel' t target
        end
    | None => None
    end.
Proof. destruct fuel; reflexivity. Qed.

Lemma stat_node (t : tree) path n : t !! path = Some (Node n) -> stat t path = Some n.
Proof. intros H. unfold stat. rewrite follow_eq, H. reflexivity. Qed.

Lemma stat_absent (t : tree) path : t !! path = None -> stat t path = None.
Proof. intros H. unfold stat. rewrite follow_eq, H. reflexivity. Qed.

Lemma stat_link (t : tree) path target :
  t !! path = Some (Symlink target) -> stat t path = follow 39 t target.
Proof. intros H. unfold stat. rewrite follow_eq, H. reflexivity. Qed.

Lemma follow_mono fuel fuel' (t : tree) path n :
  follow fuel t path = Some n -> fuel <= fuel' -> follow fuel' t path = Some n.
Proof.
  revert fuel' path. induction fuel as [|fuel IH]; intros fuel' path H Hle.
  all: rewrite follow_eq in H; rewrite follow_eq.
  all: destruct (t !! path) as [[m|target]|]; try discriminate; try assumption.
  destruct fuel' as [|fuel']; [lia|]. apply IH; [assumption | lia].
Qed.

(** A chain of links that leads to a directory does not pass through a
    path that leads to none, so it is the same in every tree that
    differs at this path alone. *)
Lemma follow_elsewhere fuel fuel' (t t2 : tree) key path :
  (forall q, q <> key -> t2 !! q = t !! q) ->
  follow fuel t path = Some Dir -> fuel <= fuel' ->
  follow fuel' t key <> Some Dir ->
  follow fuel t2 path = Some Dir.
Proof.
  intros Hsame. revert path.
  induction fuel as [|fuel IH]; intros path H Hle Hkey.
  all: destruct (decide (path = key)) as [->|Hne];
    [exfalso; apply Hkey; eapply follow_mono; eassumption|].
  all: rewrite follow_eq in H; rewrite follow_eq, (Hsame _ Hne).
  all: destruct (t !! path) as [[m|target]|]; try discriminate; try assumption.
  apply IH; [assumption | lia | assumption].
Qed.

(** An entry made where none was breaks no chain. *)
Lemma follow_insert_fresh fuel (t : tree) key e path n :
  t !! key = None -> follow fuel t path = Some n ->
  follow fuel (<[key := e]> t) path = Some n.
Proof.
  intros Hkey. revert path. induction fuel as [|fuel IH]; intros path H.
  all: rewrite follow_eq in H; rewrite follow_eq.
  all: destruct (decide (path = key)) as [->|Hne]; [rewrite Hkey in H; discriminate|].
  all: rewrite lookup_insert_ne by congruence.
  all: destruct (t !! path) as [[m|target]|]; try discriminate; try assumption.
  apply IH. assumption.
Qed.

Lemma cannot_create_none (t : tree) path names :
  cannot_create t path names = None ->
  t !! path = None /\ stat t (os_path_dirname path) = Some Dir.
Proof.
  unfold cannot_create.
  destruct (stat t (os_path_dirname path)) as [[c|]|]; try discriminate.
  destruct (t !! path); [discriminate | auto].
Qed.

(** ** The runs of the operations *)

Lemma os_makedirs_run (t : tree) path :
  os_makedirs path t =
    match cannot_create t path (quoted path) with
    | None => (<[path := Node Dir]> t, Ret tt)
    | Some e =>
        match stat t path with
        | Some Dir => (t, Ret tt)
        | _ => (t, Raise e)
        end
    end.
Proof.
  unfold os_makedirs, try_except, os_mkdir, os_path_isdir, bind, gets, modify,
    raise, ret.
  destruct (cannot_create t path _); [|reflexivity].
  destruct (stat t path) as [[c|]|]; reflexivity.
Qed.

Lemma os_symlink_run (t : tree) src dst :
  os_symlink src dst t =
    match cannot_create t dst (quoted src ++ " -> " ++ quoted dst) with
    | None => (<[dst := Symlink src]> t, Ret tt)
    | Some e => (t, Raise e)
    end.
Proof.
  unfold os_symlink, bind, gets, modify, raise.
  destruct (cannot_create t dst _); reflexivity.
Qed.

(** The function, by cases: on the mount point it settles on, on
    [os.makedirs], and on what [/app/checkpoints_v2] leads to. *)
Lemma map_network_volume_run (t : tree) :
  map_network_volume t =
    match network_volume t with
    | None => (t, Ret (tt, None))
    | Some volume =>
        match os_makedirs (volume ++ "/OpenVoice") t with
        | (t1, Raise e) => (t1, Ret (tt, Some (ErrExn e)))
        | (t1, Ret _) =>
            match stat t1 "/app/checkpoints_v2" with
            | Some Dir => (t1, Ret (tt, Some (ErrExn shutil_is_unbound)))
            | _ =>
                match os_symlink (volume ++ "/OpenVoice") "/app/checkpoints_v2"
                        (delete "/app/checkpoints_v2" t1) with
                | (t2, Ret _) => (t2, Ret (tt, None))
                | (t2, Raise e) => (t2, Ret (tt, Some (ErrExn e)))
                end
            end
        end
    end.
Proof.
  assert (Hbody : forall volume,
    try_except
      ((os_makedirs (volume ++ "/OpenVoice");+
        let+ is_link := os_path_islink "/app/checkpoints_v2" in
        let+ present :=
          if is_link then ret true else os_path_exists "/app/checkpoints_v2" in
        (if present then
           let+ is_dir := os_path_isdir "/app/checkpoints_v2" in
           if is_dir then shutil_rmtree "/app/checkpoints_v2"
           else os_remove "/app/checkpoints_v2"
         else ret tt);+
        os_symlink (volume ++ "/OpenVoice") "/app/checkpoints_v2");+
       ret (tt, None))
      (fun e => ret (tt, Some (ErrExn e))) t
    = match os_makedirs (volume ++ "/OpenVoice") t with
      | (t1, Raise e) => (t1, Ret (tt, Some (ErrExn e)))
      | (t1, Ret _) =>
          match stat t1 "/app/checkpoints_v2" with
          | Some Dir => (t1, Ret (tt, Some (ErrExn shutil_is_unbound)))
          | _ =>
              match os_symlink (volume ++ "/OpenVoice") "/app/checkpoints_v2"
                      (delete "/app/checkpoints_v2" t1) with
              | (t2, Ret _) => (t2, Ret (tt, None))
              | (t2, Raise e) => (t2, Ret (tt, Some (ErrExn e)))
              end
          end
      end).
  { intros volume. unfold try_except. unfold bind at 1. unfold bind at 1.
    destruct (os_makedirs (volume ++ "/OpenVoice") t) as [t1 [[]|e]];
      [|reflexivity].
    unfold os_remove, os_path_islink, os_path_exists, os_path_isdir,
      shutil_rmtree, bind, gets, ret, raise, modify, shutil_is_unbound.
    cbn beta iota.
    destruct (t1 !! "/app/checkpoints_v2") as [[[c|]|target]|] eqn:E;
      [ pose proof (stat_node _ _ _ E) as Hs
      | pose proof (stat_node _ _ _ E) as Hs
      | destruct (stat t1 "/app/checkpoints_v2") as [[?|]|] eqn:Hs
      | pose proof (stat_absent _ _ E) as Hs ].
    all: repeat (cbn beta iota; rewrite ?E, ?Hs).
    all: rewrite ?(delete_id _ _ E).
    all: try reflexivity.
    all: destruct (os_symlink _ _ _) as [t2 [[]|e]]; reflexivity. }
  unfold network_volume.
  destruct (stat t "/runpod-volume") eqn:E1;
    [|destruct (stat t "/workspace") eqn:E2].
  - rewrite <- Hbody. unfold map_network_volume, try_except.
    unfold bind at 1. unfold os_path_exists at 1. unfold gets at 1.
    cbn beta iota. rewrite E1. reflexivity.
  - rewrite <- Hbody. unfold map_network_volume, try_except.
    unfold bind at 1. unfold os_path_exists at 1. unfold gets at 1.
    cbn beta iota. rewrite E1. cbn beta iota.
    unfold bind at 1. unfold bind at 1.
    unfold os_path_exists at 1. unfold gets at 1.
    cbn beta iota. rewrite E2. reflexivity.
  - unfold map_network_volume, try_except, bind, os_path_exists, gets, ret.
    rewrite E1, E2. reflexivity.
Qed.

(** ** [map_network_volume] *)

(** X22.  [map_network_volume] returns a pair for every file system.
    With neither mount point present it reports no error and changes
    nothing.  With a mount point present, a run that reports no error
    leaves [/app/checkpoints_v2] as a link to [<volume>/OpenVoice],
    which leads to a directory, and leaves every other path as it was. *)
Theorem map_network_volume_outcome (t : tree) :
  exists t' error,
    map_network_volume t = (t', Ret (tt, error)) /\
    match network_volume t with
    | None => error = None /\ t' = t
    | Some volume =>
        error = None ->
        t' !! "/app/checkpoints_v2" = Some (Symlink (volume ++ "/OpenVoice")) /\
        stat t' (volume ++ "/OpenVoice") = Some Dir /\
        forall path,
          path <> "/app/checkpoints_v2" -> path <> volume ++ "/OpenVoice" ->
          t' !! path = t !! path
    end.
Proof.
  rewrite map_network_volume_run.
  destruct (network_volume t) as [volume|]; [|eauto].
  rewrite os_makedirs_run.
  assert (Hlink : forall t1,
    stat t1 (volume ++ "/OpenVoice") = Some Dir ->
    (forall path, path <> volume ++ "/OpenVoice" -> t1 !! path = t !! path) ->
    exists t' error,
      match stat t1 "/app/checkpoints_v2" with
      | Some Dir => (t1, Ret (tt, Some (ErrExn shutil_is_unbound)))
      | _ =>
          match os_symlink (volume ++ "/OpenVoice") "/app/checkpoints_v2"
                  (delete "/app/checkpoints_v2" t1) with
          | (t2, Ret _) => (t2, Ret (tt, None))
          | (t2, Raise e) => (t2, Ret (tt, Some (ErrExn e)))
          end
      end = (t', Ret (tt, error)) /\
      (error = None ->
       t' !! "/app/checkpoints_v2" = Some (Symlink (volume ++ "/OpenVoice")) /\
       stat t' (volume ++ "/OpenVoice") = Some Dir /\
       forall path,
         path <> "/app/checkpoints_v2" -> path <> volume ++ "/OpenVoice" ->
         t' !! path = t !! path)).
  { intros t1 Hdir Hrest.
    assert (Hnot : stat t1 "/app/checkpoints_v2" <> Some Dir ->
      exists t' error,
        match os_symlink (volume ++ "/OpenVoice") "/app/checkpoints_v2"
                (delete "/app/checkpoints_v2" t1) with
        | (t2, Ret _) => (t2, Ret (tt, None))
        | (t2, Raise e) => (t2, Ret (tt, Some (ErrExn e)))
        end = (t', Ret (tt, error)) /\
        (error = None ->
         t' !! "/app/checkpoints_v2" = Some (Symlink (volume ++ "/OpenVoice")) /\
         stat t' (volume ++ "/OpenVoice") = Some Dir /\
         forall path,
           path <> "/app/checkpoints_v2" -> path <> volume ++ "/OpenVoice" ->
           t' !! path = t !! path)).
    { intros Hnd. rewrite os_symlink_run.
      destruct (cannot_create _ _ _) as [e|].
      - eexists _, _. split; [reflexivity | discriminate].
      - eexists _, _. split; [reflexivity|]. intros _.
        assert (Hsame : forall q, q <> "/app/checkpoints_v2" ->
                  <["/app/checkpoints_v2" := Symlink (volume ++ "/OpenVoice")]>
                    (delete "/app/checkpoints_v2" t1) !! q = t1 !! q).
        { intros q Hq. rewrite lookup_insert_ne, lookup_delete_ne; congruence. }
        split; [apply lookup_insert_eq|]. split.
        + unfold stat. eapply follow_elsewhere; [exact Hsame | exact Hdir | | exact Hnd].
          lia.
        + intros path Hp Ho. rewrite Hsame by assumption. auto. }
    destruct (stat t1 "/app/checkpoints_v2") as [[c|]|] eqn:Hs.
    - apply Hnot. discriminate.
    - eexists _, _. split; [reflexivity | discriminate].
    - apply Hnot. discriminate. }
  destruct (cannot_create t (volume ++ "/OpenVoice") _) as [e|] eqn:Ec.
  - destruct (stat t (volume ++ "/OpenVoice")) as [[c|]|] eqn:Eo.
    + eexists _, _. split; [reflexivity | discriminate].
    + apply Hlink; auto.
    + eexists _, _. split; [reflexivity | discriminate].
  - apply cannot_create_none in Ec as [Eabs _].
    apply Hlink.
    + apply stat_node, lookup_insert_eq.
    + intros path Hp. apply lookup_insert_ne. congruence.
Qed.

(** X23.  With a mount point present, a directory at
    [/app/checkpoints_v2] (or a link that leads to one) is never
    removed: the call of [shutil.rmtree] meets an unbound name, the
    function reports an error, no link is made, and nothing that was
    in the file system is lost.  The error is the [NameError] whenever
    the checkpoint directory of the volume could be ensured. *)
Theorem map_network_volume_keeps_a_directory (t : tree) (volume : string) :
  network_volume t = Some volume ->
  stat t "/app/checkpoints_v2" = Some Dir ->
  exists t' e,
    map_network_volume t = (t', Ret (tt, Some (ErrExn e))) /\
    t ⊆ t' /\
    t' !! "/app/checkpoints_v2" = t !! "/app/checkpoints_v2" /\
    (stat t' (volume ++ "/OpenVoice") = Some Dir -> e = shutil_is_unbound).
Proof.
  intros Hvol Hdir. rewrite map_network_volume_run, Hvol, os_makedirs_run.
  destruct (cannot_create t (volume ++ "/OpenVoice") _) as [e|] eqn:Ec.
  - destruct (stat t (volume ++ "/OpenVoice")) as [[c|]|] eqn:Eo.
    + eexists _, _. split; [reflexivity|]. repeat split; [reflexivity|].
      rewrite Eo. discriminate.
    + rewrite Hdir. eexists _, _. split; [reflexivity|]. repeat split; reflexivity.
    + eexists _, _. split; [reflexivity|]. repeat split; [reflexivity|].
      rewrite Eo. discriminate.
  - apply cannot_create_none in Ec as [Eabs _].
    assert (Hne : volume ++ "/OpenVoice" <> "/app/checkpoints_v2").
    { intros Heq. rewrite Heq in Eabs. rewrite (stat_absent _ _ Eabs) in Hdir.
      discriminate. }
    unfold stat in *. rewrite (follow_insert_fresh _ _ _ _ _ _ Eabs Hdir).
    eexists _, _. split; [reflexivity|]. split; [apply insert_subseteq, Eabs|].
    split; [apply lookup_insert_ne, Hne | reflexivity].
Qed.

Lemma dirname_of_the_link : os_path_dirname "/app/checkpoints_v2" = "/app".
Proof. reflexivity. Qed.

(** X24.  On a container that starts for the first time with a volume,
    [map_network_volume] ensures [<volume>/OpenVoice], puts the link at
    [/app/checkpoints_v2] (in place of a regular file, if one was
    there) and reports no error.  Run again on the result, it finds the
    link leading to a directory, reaches [shutil.rmtree], and reports
    the [NameError]; the file system stays as the first run left it. *)
Theorem map_network_volume_twice (t : tree) (volume : string) :
  first_start t volume ->
  let linked :=
    <["/app/checkpoints_v2" := Symlink (volume ++ "/OpenVoice")]>
      (<[volume ++ "/OpenVoice" := Node Dir]> t) in
  map_network_volume t = (linked, Ret (tt, None)) /\
  map_network_volume linked
    = (linked, Ret (tt, Some (ErrExn shutil_is_unbound))).
Proof.
  intros (Hvol & Hmount & Happ & Hov & Hckpt) linked.
  assert (Hcase : (volume = "/runpod-volume" \/ volume = "/workspace") /\
                  os_path_dirname (volume ++ "/OpenVoice") = volume /\
                  volume ++ "/OpenVoice" <> "/app/checkpoints_v2" /\
                  volume ++ "/OpenVoice" <> "/app" /\
                  volume ++ "/OpenVoice" <> "/runpod-volume" /\
                  volume ++ "/OpenVoice" <> "/workspace" /\
                  volume <> "/app/checkpoints_v2" /\
                  volume ++ "/OpenVoice" <> volume).
  { destruct Hvol as [-> | [-> _]]; repeat split; auto; discriminate. }
  destruct Hcase as (Hwhich & Hparent & Hne1 & Hne2 & Hne3 & Hne4 & Hne5 & Hne6).
  assert (Hfound : forall t0 : tree,
            t0 !! "/runpod-volume" = t !! "/runpod-volume" ->
            t0 !! "/workspace" = t !! "/workspace" ->
            network_volume t0 = Some volume).
  { intros t0 H1 H2. unfold network_volume.
    destruct Hvol as [-> | [-> Habs]].
    - rewrite (stat_node t0 _ Dir) by congruence. reflexivity.
    - rewrite (stat_absent t0 "/runpod-volume") by congruence.
      rewrite (stat_node t0 _ Dir) by congruence. reflexivity. }
  set (made := <[volume ++ "/OpenVoice" := Node Dir]> t).
  assert (Hmade : os_makedirs (volume ++ "/OpenVoice") t = (made, Ret tt)).
  { rewrite os_makedirs_run. unfold cannot_create.
    rewrite Hparent, (stat_node _ _ _ Hmount).
    destruct Hov as [Hov | Hov]; rewrite Hov; [reflexivity|].
    rewrite (stat_node _ _ _ Hov). unfold made. rewrite insert_id; auto. }
  assert (Hmade_ckpt : made !! "/app/checkpoints_v2" = t !! "/app/checkpoints_v2").
  { apply lookup_insert_ne, Hne1. }
  split.
  - rewrite map_network_volume_run, (Hfound t eq_refl eq_refl), Hmade.
    assert (Hs : stat made "/app/checkpoints_v2" <> Some Dir).
    { destruct Hckpt as [Habs | [content Hfile]].
      - rewrite stat_absent; [discriminate | congruence].
      - rewrite (stat_node _ _ (File content)); [discriminate | congruence]. }
    assert (Hsym : os_symlink (volume ++ "/OpenVoice") "/app/checkpoints_v2"
                     (delete "/app/checkpoints_v2" made) = (linked, Ret tt)).
    { rewrite os_symlink_run. unfold cannot_create.
      rewrite dirname_of_the_link, (stat_node _ "/app" Dir).
      - rewrite lookup_delete_eq. unfold linked. rewrite insert_delete_eq.
        reflexivity.
      - rewrite lookup_delete_ne by discriminate.
        unfold made. rewrite lookup_insert_ne by exact Hne2. exact Happ. }
    rewrite Hsym.
    destruct (stat made "/app/checkpoints_v2") as [[c|]|]; congruence.
  - assert (Hov' : linked !! (volume ++ "/OpenVoice") = Some (Node Dir)).
    { unfold linked, made. rewrite lookup_insert_ne by congruence.
      apply lookup_insert_eq. }
    rewrite map_network_volume_run, (Hfound linked).
    + rewrite os_makedirs_run. unfold cannot_create.
      rewrite Hparent, (stat_node linked volume Dir).
      * rewrite Hov', (stat_node _ _ _ Hov').
        rewrite (stat_link linked "/app/checkpoints_v2" (volume ++ "/OpenVoice"))
          by apply lookup_insert_eq.
        rewrite follow_eq, Hov'. reflexivity.
      * unfold linked, made. rewrite !lookup_insert_ne by congruence. exact Hmount.
    + unfold linked, made. rewrite !lookup_insert_ne by congruence. reflexivity.
    + unfold linked, made. rewrite !lookup_insert_ne by congruence. reflexivity.
Qed.

End VolumeProperties.

(* ===================================================================== *)
(** * Concrete runs *)
(* ===================================================================== *)

#[local] Existing Instance Demo.collaborators.

Example md5_empty :
  MD5.hexdigest (str_encode "") = "d41d8cd98f00b204e9800998ecf8427e".
Proof. vm_compute. reflexivity. Qed.

Example md5_abc :
  MD5.hexdigest (str_encode "abc") = "900150983cd24fb0d6963f7d28e17f72".
Proof. vm_compute. reflexivity. Qed.

Example md5_two_blocks :
  MD5.hexdigest (str_encode
    "aaaaaaaaaaaaaaaaaaaaaaaaaaaaaaaaaaaaaaaaaaaaaaaaaaaaaaaaaaaaaaaaaaaaaa")
  = "0f5c6c4e740bfcc08c3c26ccb2673d46".
Proof. vm_compute. reflexivity. Qed.

Example b64_three : Base64.b64encode [x4d; x61; x6e] = "TWFu".
Proof. reflexivity. Qed.

Example b64_two : Base64.b64encode [x4d; x61] = "TWE=".
Proof. reflexivity. Qed.

Example b64_one : Base64.b64encode [x4d] = "TQ==".
Proof. reflexivity. Qed.

Example b64_riff :
  Base64.b64encode [x52; x49; x46; x46; x00; xff; xfe] = "UklGRgD//g==".
Proof. reflexivity. Qed.

(** The end-to-end scenarios of the specification. *)
Example scenario_remote_reference :
  snd (handler
         (Demo.job (<["text" := VStr "Hello world"]>
                    (<["voice_url" := VStr "https://example.com/ref.wav"]>
                    (<["language" := VStr "EN"]>
                    {[ "speed" := VFloat 1 ]}))))
         Demo.world)
  = Ret (success_result (VStr "data:audio/wav;base64,UklGRiQAAAA=")).
Proof. vm_compute. reflexivity. Qed.

Example scenario_missing_file :
  snd (handler
         (Demo.job (<["voice_url" := VStr "/missing/file.wav"]>
                    {[ "text" := VStr "hi" ]}))
         Demo.world)
  = Ret (error_result "Local voice file not found: /missing/file.wav").
Proof. vm_compute. reflexivity. Qed.

(** The handler on a job that is not even a dictionary. *)
Example handler_on_a_list :
  snd (handler (VList []) Demo.world)
  = Ret (error_result
           "Unexpected error: list indices must be integers or slices, not str").
Proof. vm_compute. reflexivity. Qed.

(** Counterexample to C2 as the specification states it: with the three storage
    variables set, one of them to the empty string, and checkpoints, a
    reference of 1200 bytes and a text in place, the run succeeds and
    returns a data URI, which is no object URL. *)
Lemma storage_set_but_empty_gives_data_uri :
  let w := Demo.with_env (<["BUCKET_ENDPOINT_URL" := ""]> Demo.storage_env)
             Demo.world in
  storage_set (env w) = true /\
  fs w !! "checkpoints_v2/converter/config.json" = Some (File [x7b; x7d]) /\
  fs w !! "checkpoints_v2/converter/checkpoint.pth" = Some (File [x00]) /\
  fs w !! "voices/ref.wav" = Some (File (repeat x00 1200)) /\
  snd (handler Demo.local_job w)
    = Ret (success_result (VStr "data:audio/wav;base64,UklGRiQAAAA=")) /\
  forall object_name,
    "data:audio/wav;base64,UklGRiQAAAA=" <> object_url (env w) object_name.
Proof.
  repeat split; try (vm_compute; reflexivity).
  intros object_name. vm_compute. discriminate.
Qed.

(** Witness of C2: a run with the storage configured. *)
Lemma output_is_url_or_data_uri_witness :
  exists path,
    "https://s3.example.com/OpenVoice/OpenVoice_20240517_093000_ghijkl_32f210.wav"
    = object_url Demo.storage_env (os_path_basename path).
Proof.
  apply (output_is_url_or_data_uri Demo.local_job
           (Demo.with_env Demo.storage_env Demo.world)
           (fst (handler Demo.local_job
                   (Demo.with_env Demo.storage_env Demo.world)))).
  vm_compute. reflexivity.
Defined.

(** Witness of C3: a job without [text], no defaults in the environment. *)
Lemma handler_requires_text_and_voice_url_witness :
  exists w' msg,
    handler (Demo.job {[ "voice_url" := VStr "voices/ref.wav" ]}) Demo.world
      = (w', Ret (error_result msg)) /\
    trace w' = trace Demo.world /\
    synthesis_calls (trace w') = synthesis_calls (trace Demo.world).
Proof.
  apply (handler_requires_text_and_voice_url
           (Demo.job_dict {[ "voice_url" := VStr "voices/ref.wav" ]})
           {[ "voice_url" := VStr "voices/ref.wav" ]} Demo.world).
  - reflexivity.
  - left. split; reflexivity.
Defined.

(** C4 fails on the code: with [config.json] absent, [generate_wav]
    reaches the converter's constructor first (the log shows the load),
    the constructor raises, and the caller gets that exception, not the
    message [Required checkpoint file not found: ...]. *)
Lemma missing_checkpoint_reaches_the_loader :
  let w := set_fs (delete "checkpoints_v2/converter/config.json" (fs Demo.world))
             Demo.world in
  let run := generate_wav (VStr "EN") (VStr "Hello world") "voices/ref.wav"
               (VFloat 1) w in
  fs w !! "checkpoints_v2/converter/config.json" = None /\
  snd run = Ret (None, Some (ErrExn (Demo.no_such_file
                                       "checkpoints_v2/converter/config.json"))) /\
  trace (fst run)
    = [ EvGenerateWav (VStr "EN") (VStr "Hello world") "voices/ref.wav" (VFloat 1);
        EvLoadConverter "checkpoints_v2/converter/config.json" ] /\
  snd (handler Demo.local_job w)
    = Ret (error_result
             "Failed to generate audio: [Errno 2] No such file or directory: 'checkpoints_v2/converter/config.json'").
Proof. repeat split; vm_compute; reflexivity. Qed.


Example two_speakers_two_outputs :
  trace (fst (generate_wav (VStr "EN") (VStr "Hello world") "voices/ref.wav"
                (VFloat 1) (Demo.with_env Demo.storage_env Demo.world)))
  = synthesis_log (VStr "EN") (VStr "Hello world") "voices/ref.wav" (VFloat 1)
      ["EN-US"; "EN_INDIA"]
      ["outputs_v2/OpenVoice_20240517_093000_abcdef_32f210.wav";
       "outputs_v2/OpenVoice_20240517_093000_ghijkl_32f210.wav"]
      [EvS3Upload "outputs_v2/OpenVoice_20240517_093000_ghijkl_32f210.wav"
         "OpenVoice" "OpenVoice_20240517_093000_ghijkl_32f210.wav"].
Proof. vm_compute. reflexivity. Qed.

(** Witness of C6: the local file of 999 bytes, and the download of 512
    bytes. *)
Lemma small_reference_rejected_witness :
  (exists w',
     handler (Demo.job (<["text" := VStr "Hello world"]>
                        {[ "voice_url" := VStr "voices/short.wav" ]}))
       Demo.world
       = (w', Ret (error_result "Voice file too small: 999 bytes")) /\
     synthesis_calls (trace w') = synthesis_calls (trace Demo.world)) /\
  (exists w',
     handler (Demo.job (<["text" := VStr "Hello world"]>
                        {[ "voice_url" := VStr "https://example.com/short.wav" ]}))
       Demo.world
       = (w', Ret (error_result "Voice file too small: 512 bytes")) /\
     synthesis_calls (trace w') = synthesis_calls (trace Demo.world)).
Proof.
  split.
  - apply (small_reference_rejected
             (Demo.job_dict (<["text" := VStr "Hello world"]>
                             {[ "voice_url" := VStr "voices/short.wav" ]}))
             (<["text" := VStr "Hello world"]>
              {[ "voice_url" := VStr "voices/short.wav" ]})
             Demo.world "voices/short.wav" (repeat x00 999)).
    + reflexivity.
    + reflexivity.
    + reflexivity.
    + reflexivity.
    + discriminate.
    + apply Nat.ltb_lt. vm_compute. reflexivity.
    + left. split; reflexivity.
  - apply (small_reference_rejected
             (Demo.job_dict
                (<["text" := VStr "Hello world"]>
                 {[ "voice_url" := VStr "https://example.com/short.wav" ]}))
             (<["text" := VStr "Hello world"]>
              {[ "voice_url" := VStr "https://example.com/short.wav" ]})
             Demo.world "https://example.com/short.wav" (repeat x00 512)).
    + reflexivity.
    + reflexivity.
    + reflexivity.
    + reflexivity.
    + discriminate.
    + apply Nat.ltb_lt. vm_compute. reflexivity.
    + right. split; [reflexivity|]. split; [vm_compute; discriminate|].
      exists 200%Z, [repeat x00 512]. repeat split; reflexivity.
Defined.


(** Witness of C8: the constants of [__main__] on a provisioned worker. *)
Lemma sync_checkpoints_cache_hit_witness :
  sync_checkpoints main_url main_target_dir main_zip_filename
    main_required_dirs Demo.provisioned
    = (Demo.provisioned, Ret (tt, None)) /\
  (sync_checkpoints main_url main_target_dir main_zip_filename main_required_dirs;;
   sync_checkpoints main_url main_target_dir main_zip_filename main_required_dirs)
    Demo.provisioned
    = (Demo.provisioned, Ret (tt, None)).
Proof.
  apply sync_checkpoints_cache_hit. reflexivity.
Defined.

(** Counterexample to C9 as the specification states it: two calls in the same
    second whose draws coincide return the same file name. *)
Lemma filenames_can_collide :
  let w := Demo.with_rng (fun _ => 0) Demo.world in
  let call1 := generate_unique_filename "outputs_v2/OpenVoice" ".wav" w in
  let call2 := generate_unique_filename "outputs_v2/OpenVoice" ".wav" (fst call1) in
  snd call1
    = Ret (Some "outputs_v2/OpenVoice_20240517_093000_aaaaaa_32f210.wav", None) /\
  snd call2
    = Ret (Some "outputs_v2/OpenVoice_20240517_093000_aaaaaa_32f210.wav", None).
Proof. split; vm_compute; reflexivity. Qed.

(** Witness of C10: the defaults are set, the job gives empty strings. *)
Lemma empty_field_ignores_default_witness :
  (exists w',
     handler (Demo.job (<["text" := VStr ""]>
                        {[ "voice_url" := VStr "voices/ref.wav" ]}))
       (Demo.with_env Demo.defaults_env Demo.world)
       = (w', Ret (error_result "Text is required")) /\
     trace w' = trace Demo.world) /\
  (exists w',
     handler (Demo.job (<["text" := VStr "Hello world"]>
                        {[ "voice_url" := VStr "" ]}))
       (Demo.with_env Demo.defaults_env Demo.world)
       = (w', Ret (error_result "Voice URL is required")) /\
     trace w' = trace Demo.world).
Proof.
  split.
  - destruct (empty_field_ignores_default
                (Demo.job_dict (<["text" := VStr ""]>
                                {[ "voice_url" := VStr "voices/ref.wav" ]}))
                (<["text" := VStr ""]>
                 {[ "voice_url" := VStr "voices/ref.wav" ]})
                (Demo.with_env Demo.defaults_env Demo.world))
      as [Htext _]; [reflexivity .. |].
    apply Htext. reflexivity.
  - destruct (empty_field_ignores_default
                (Demo.job_dict (<["text" := VStr "Hello world"]>
                                {[ "voice_url" := VStr "" ]}))
                (<["text" := VStr "Hello world"]>
                 {[ "voice_url" := VStr "" ]})
                (Demo.with_env Demo.defaults_env Demo.world))
      as [_ Hvoice]; [reflexivity .. |].
    apply Hvoice. reflexivity.
Defined.

(** ** Runs for the further properties *)

(** A first start without checkpoints: the archive is fetched and
    unpacked, and the next start finds the directories. *)
Example provisioning_then_hit :
  let w := Demo.world_of Demo.unpacking tt Demo.serving in
  let first := sync_checkpoints main_url main_target_dir main_zip_filename
                 main_required_dirs w in
  let second := sync_checkpoints main_url main_target_dir main_zip_filename
                  main_required_dirs (fst first) in
  snd first = Ret (tt, None) /\
  trace (fst first)
    = [ EvUrlRetrieve main_url "/app/checkpoints_v2_0417.zip";
        EvExtractAll "/app/checkpoints_v2_0417.zip" "/app" ] /\
  fs (fst first) !! "/app/checkpoints_v2_0417.zip" = None /\
  snd second = Ret (tt, None) /\
  trace (fst second) = trace (fst first).
Proof.
  split; [|split; [|split; [|split]]]; vm_compute; reflexivity.
Qed.

(** Witness of X2: a worker without the checkpoint directories. *)
Lemma sync_checkpoints_miss_witness :
  sync_checkpoints main_url main_target_dir main_zip_filename
    main_required_dirs (Demo.world_of Demo.unpacking tt Demo.serving)
  = download_and_unzip main_url main_target_dir main_zip_filename
      (Demo.world_of Demo.unpacking tt Demo.serving).
Proof.
  apply sync_checkpoints_miss. vm_compute. reflexivity.
Defined.

(** Witness of X3: the server answers 404. *)
Lemma download_and_unzip_refused_witness :
  exists e,
    download_and_unzip main_url main_target_dir main_zip_filename
      (Demo.world_of Demo.unpacking tt Demo.missing)
    = (set_trace [EvUrlRetrieve main_url main_zip_filename]
         (Demo.world_of Demo.unpacking tt Demo.missing),
       Ret (tt, Some (ErrExn e))).
Proof.
  apply (download_and_unzip_refused main_url main_target_dir main_zip_filename
           (Demo.world_of Demo.unpacking tt Demo.missing)).
  reflexivity.
Defined.




(** Witness of X9: a server that cannot be reached. *)
Lemma download_file_refused_witness :
  exists e,
    download_file "https://example.com/none.wav" "tmp/audio.wav" Demo.world
    = (set_trace [EvHttpGet "https://example.com/none.wav"] Demo.world,
       Ret (None, Some (ErrExn e))).
Proof.
  apply (download_file_refused "https://example.com/none.wav" "tmp/audio.wav"
           Demo.world).
  left. reflexivity.
Defined.

(** Witness of X12: the run of the local job, an output of eight bytes. *)
Lemma data_uri_length_witness :
  exists path data,
    fs (fst (generate_wav (VStr "EN") (VStr "Hello world") "voices/ref.wav"
               (VFloat 1) Demo.world)) !! path = Some (File data) /\
    "data:audio/wav;base64,UklGRiQAAAA="
      = "data:audio/wav;base64," ++ Base64.b64encode data /\
    String.length "data:audio/wav;base64,UklGRiQAAAA="
      = 22 + 4 * ((length data + 2) / 3).
Proof.
  apply (data_uri_length (VStr "EN") (VStr "Hello world") "voices/ref.wav"
           (VFloat 1) Demo.world).
  - vm_compute. reflexivity.
  - reflexivity.
Defined.



(** The run of the witness does get to the speakers. *)
Example handler_without_speakers :
  let run := handler (Libs := Demo.mute) Demo.local_job
               (Demo.world_of Demo.mute tt (net Demo.world)) in
  last (trace (fst run)) = Some (EvSpeakers []) /\
  snd run
    = Ret (error_result
             "Failed to generate audio: cannot access local variable 'output_audio_path' where it is not associated with a value").
Proof. split; vm_compute; reflexivity. Qed.

(** Witness of X15: a job without [input], and a job whose [input] is a string. *)
Lemma handler_malformed_job_witness :
  handler (VDict {[ "id" := VStr "job-1" ]}) Demo.world
    = (Demo.world, Ret (error_result "Unexpected error: 'input'")) /\
  exists w',
    handler (VDict {[ "input" := VStr "Hello world" ]}) Demo.world
      = (w', Ret (error_result
                    "Unexpected error: 'str' object has no attribute 'get'")) /\
    trace w' = [].
Proof.
  split.
  - apply (handler_malformed_job {[ "id" := VStr "job-1" ]} Demo.world).
    reflexivity.
  - apply (proj2 (handler_malformed_job {[ "input" := VStr "Hello world" ]}
                    Demo.world) (VStr "Hello world")); reflexivity.
Defined.

(** Witness of X16: a regular file named [tmp]. *)
Lemma handler_blocked_scratch_witness :
  handler Demo.local_job
    (set_fs (<["tmp" := File []]> (fs Demo.world)) Demo.world)
  = (set_fs (<["tmp" := File []]> (fs Demo.world)) Demo.world,
     Ret (error_result "Unexpected error: [Errno 17] File exists: 'tmp'")).
Proof.
  apply (handler_blocked_scratch
           (Demo.job_dict (<["text" := VStr "Hello world"]>
                           {[ "voice_url" := VStr "voices/ref.wav" ]}))
           (VDict (<["text" := VStr "Hello world"]>
                   {[ "voice_url" := VStr "voices/ref.wav" ]}))
           (set_fs (<["tmp" := File []]> (fs Demo.world)) Demo.world) []).
  - reflexivity.
  - reflexivity.
Defined.

(** Witness of X17: the [voice_url] is the number 5. *)
Lemma handler_voice_url_not_a_string_witness :
  exists w',
    handler (Demo.job (<["text" := VStr "Hello world"]>
                       {[ "voice_url" := VInt 5 ]}))
      Demo.world
    = (w', Ret (error_result
                  "Unexpected error: 'int' object has no attribute 'startswith'")) /\
    trace w' = [].
Proof.
  apply (handler_voice_url_not_a_string
           (Demo.job_dict (<["text" := VStr "Hello world"]>
                           {[ "voice_url" := VInt 5 ]}))
           (<["text" := VStr "Hello world"]> {[ "voice_url" := VInt 5 ]})
           Demo.world (VInt 5)); reflexivity.
Defined.

(** Witness of X18: the [text] is the number 123, the reference is remote. *)
Lemma handler_text_not_sliceable_witness :
  exists w',
    handler (Demo.job (<["text" := VInt 123]>
                       {[ "voice_url" := VStr "https://example.com/ref.wav" ]}))
      Demo.world
    = (w', Ret (error_result
                  "Unexpected error: 'int' object is not subscriptable")) /\
    synthesis_calls (trace w') = 0 /\
    request_count (trace w') = 1.
Proof.
  apply (handler_text_not_sliceable
           (Demo.job_dict
              (<["text" := VInt 123]>
               {[ "voice_url" := VStr "https://example.com/ref.wav" ]}))
           (<["text" := VInt 123]>
            {[ "voice_url" := VStr "https://example.com/ref.wav" ]})
           Demo.world (VInt 123) "https://example.com/ref.wav"
           (concat [repeat x00 1000; repeat x00 200])).
  - reflexivity.
  - reflexivity.
  - reflexivity.
  - reflexivity.
  - reflexivity.
  - reflexivity.
  - discriminate.
  - apply Nat.leb_le. vm_compute. reflexivity.
  - right. split; [reflexivity|]. split; [vm_compute; discriminate|].
    exists 200%Z, [repeat x00 1000; repeat x00 200]. repeat split; reflexivity.
Defined.


(** Witness of X23: the checkpoints are a directory of the image. *)
Lemma map_network_volume_keeps_a_directory_witness :
  exists t' e,
    Volume.map_network_volume Volume.baked
      = (t', Ret (tt, Some (ErrExn e))) /\
    Volume.baked ⊆ t' /\
    t' !! "/app/checkpoints_v2" = Some (Volume.Node Dir) /\
    (Volume.stat t' "/workspace/OpenVoice" = Some Dir ->
     e = Volume.shutil_is_unbound).
Proof.
  apply (map_network_volume_keeps_a_directory Volume.baked "/workspace");
    reflexivity.
Defined.

(** Witness of X24: a first start with the volume at [/runpod-volume]. *)
Lemma map_network_volume_twice_witness :
  let linked :=
    <["/app/checkpoints_v2" := Volume.Symlink "/runpod-volume/OpenVoice"]>
      (<["/runpod-volume/OpenVoice" := Volume.Node Dir]> Volume.fresh) in
  Volume.map_network_volume Volume.fresh = (linked, Ret (tt, None)) /\
  Volume.map_network_volume linked
    = (linked, Ret (tt, Some (ErrExn Volume.shutil_is_unbound))).
Proof.
  apply (map_network_volume_twice Volume.fresh "/runpod-volume").
  unfold Volume.first_start.
  split; [left; reflexivity|].
  split; [reflexivity|].
  split; [reflexivity|].
  split; [right; reflexivity | left; reflexivity].
Defined.
